(** * Protocol engine of the MCP worker processes

    A shallow embedding of [python_mcp/servers/base_server.py] (the
    [McpBaseServer] class: framer, dispatcher, message loop) and of the
    request loop of [mcp_embedding_server/server.py], followed by the
    properties of the engine that the specification states.

    Conventions of the embedding:
    - a Python [bytes] value is a [list ascii]; a Python [str] is the
      [string] of its UTF-8 bytes, so that decoding a valid byte sequence
      does not change the representation;
    - the standard input is a list of chunks: one physical [read] never
      crosses a chunk boundary (a raw, unbuffered file object performs a
      single system call per [read]);
    - decoded JSON documents are values of [json]; numbers are integers;
    - [json.loads] is library code and is a parameter of the message loop;
    - a tool handler either returns a value or raises an [Exception] whose
      string form is recorded;
    - the output is the list of the documents handed to [_send_response],
      which frames and writes each of them and swallows its own failures;
    - signals, logging and the debug output on stderr are not part of the
      model. *)

From Stdlib Require Import Ascii String ZArith List Lia.
From stdpp Require Import gmap strings list pretty.

Set Warnings "-register-all".
Open Scope string_scope.
Open Scope list_scope.

(** ** Python values *)

Module Py.

Inductive json :=
| JNull
| JBool (b : bool)
| JInt (z : Z)
| JStr (s : string)
| JList (l : list json)
| JDict (d : list (string * json)).

(** A [dict] keeps its items in insertion order; keys are distinct in the
    dictionaries that [json.loads] builds, and lookup returns the first
    binding. *)
Fixpoint dict_lookup (d : list (string * json)) (k : string) : option json :=
  match d with
  | [] => None
  | (k', v) :: d' => if String.eqb k' k then Some v else dict_lookup d' k
  end.

(** [d.get(k)] and [d.get(k, dflt)]. *)
Definition get (d : list (string * json)) (k : string) : json :=
  default JNull (dict_lookup d k).

Definition get_default (d : list (string * json)) (k : string) (dflt : json) : json :=
  default dflt (dict_lookup d k).

(** [v is None]. *)
Definition is_none (v : json) : bool :=
  match v with JNull => true | _ => false end.

(** [v == s] for a string literal [s]. *)
Definition str_eq (v : json) (s : string) : bool :=
  match v with JStr t => String.eqb t s | _ => false end.

(** Truth value of [v] in a condition. *)
Definition truthy (v : json) : bool :=
  match v with
  | JNull => false
  | JBool b => b
  | JInt z => negb (z =? 0)%Z
  | JStr s => negb (String.eqb s "")
  | JList l => match l with [] => false | _ => true end
  | JDict d => match d with [] => false | _ => true end
  end.

(** [type(v).__name__]. *)
Definition type_name (v : json) : string :=
  match v with
  | JNull => "NoneType"
  | JBool _ => "bool"
  | JInt _ => "int"
  | JStr _ => "str"
  | JList _ => "list"
  | JDict _ => "dict"
  end.

Definition TAB : ascii := "009"%char.
Definition LF : ascii := "010"%char.
Definition CR : ascii := "013"%char.
Definition DQUOTE : ascii := "034"%char.
Definition SQUOTE : ascii := "039"%char.
Definition BACKSLASH : ascii := "092"%char.

Definition hex_digit (n : N) : ascii :=
  nth (N.to_nat n) (list_ascii_of_string "0123456789abcdef") "0"%char.

(** One character of [repr] of a [str], quoted with [q].  Bytes above 127
    belong to the encoding of a non-ASCII code point, taken as printable. *)
Definition repr_char (q c : ascii) : list ascii :=
  if bool_decide (c = BACKSLASH) || bool_decide (c = q) then [BACKSLASH; c]
  else if bool_decide (c = TAB) then [BACKSLASH; "t"%char]
  else if bool_decide (c = LF) then [BACKSLASH; "n"%char]
  else if bool_decide (c = CR) then [BACKSLASH; "r"%char]
  else if (N_of_ascii c <? 32)%N || (N_of_ascii c =? 127)%N then
    [BACKSLASH; "x"%char; hex_digit (N_of_ascii c / 16); hex_digit (N_of_ascii c mod 16)]
  else [c].

Definition repr_str (s : string) : string :=
  let cs := list_ascii_of_string s in
  let q := if bool_decide (SQUOTE ∈ cs) && negb (bool_decide (DQUOTE ∈ cs))
           then DQUOTE else SQUOTE in
  string_of_list_ascii (q :: flat_map (repr_char q) cs ++ [q]).

(** [repr(v)]. *)
Fixpoint repr (v : json) : string :=
  match v with
  | JNull => "None"
  | JBool true => "True"
  | JBool false => "False"
  | JInt z => pretty z
  | JStr s => repr_str s
  | JList l => "[" +:+ String.concat ", " (map repr l) +:+ "]"
  | JDict d =>
      "{" +:+ String.concat ", "
                (map (fun kv => repr_str kv.1 +:+ ": " +:+ repr kv.2) d) +:+ "}"
  end.

(** [str(v)], the text an f-string interpolates. *)
Definition str (v : json) : string :=
  match v with JStr s => s | _ => repr v end.

(** [s.startswith(p)]. *)
Definition startswith (s p : string) : bool := String.prefix p s.

(** Whether [v] can be a dictionary key. *)
Definition hashable (v : json) : bool :=
  match v with JList _ | JDict _ => false | _ => true end.

(** The exceptions that the dispatcher can raise on a decoded document. *)
Inductive exn :=
| TypeError (msg : string)
| AttributeError (msg : string).

Definition exn_str (e : exn) : string :=
  match e with TypeError m => m | AttributeError m => m end.

(** [unhashable v] is raised by a dictionary lookup with key [v];
    [no_attribute v a] by [v.a] when [v] has no attribute [a]. *)
Definition unhashable (v : json) : exn :=
  TypeError ("unhashable type: '" +:+ type_name v +:+ "'").

Definition no_attribute (v : json) (a : string) : exn :=
  AttributeError ("'" +:+ type_name v +:+ "' object has no attribute '" +:+ a +:+ "'").

(** Result of a call: a value or a raised exception. *)
Inductive outcome (A : Type) :=
| Return (a : A)
| Raise (e : exn).
Arguments Return {A} a.
Arguments Raise {A} e.

End Py.

Import Py.

(** ** Byte strings and the input stream *)

Module Wire.

Abbreviation bytes := (list ascii).

Definition b (s : string) : bytes := list_ascii_of_string s.

(** [p] is a prefix of [d]. *)
Fixpoint starts_with (p d : bytes) : bool :=
  match p, d with
  | [], _ => true
  | _ :: _, [] => false
  | x :: p', y :: d' => bool_decide (x = y) && starts_with p' d'
  end.

(** [p in d] for byte strings. *)
Fixpoint contains (p d : bytes) : bool :=
  starts_with p d || match d with [] => false | _ :: d' => contains p d' end.

(** [d.find(p)]: the index of the first occurrence, or -1. *)
Fixpoint find_from (i : Z) (p d : bytes) : Z :=
  if starts_with p d then i
  else match d with [] => -1 | _ :: d' => find_from (i + 1) p d' end.

Definition find (p d : bytes) : Z := find_from 0 p d.

Definition is_digit (c : ascii) : bool :=
  (48 <=? N_of_ascii c)%N && (N_of_ascii c <=? 57)%N.

Fixpoint take_while (f : ascii -> bool) (d : bytes) : bytes :=
  match d with
  | [] => []
  | c :: d' => if f c then c :: take_while f d' else []
  end.

Fixpoint drop_while (f : ascii -> bool) (d : bytes) : bytes :=
  match d with
  | [] => []
  | c :: d' => if f c then drop_while f d' else d
  end.

(** [int(ds)] for a run of decimal digits. *)
Definition int_of_digits (ds : bytes) : nat :=
  fold_left (fun acc c => 10 * acc + (N.to_nat (N_of_ascii c) - 48)) ds 0.

(** Strict UTF-8, as the [utf-8] codec checks it: shortest forms only, no
    surrogates, nothing above U+10FFFF. *)
Definition in_range (lo hi : N) (c : ascii) : bool :=
  (lo <=? N_of_ascii c)%N && (N_of_ascii c <=? hi)%N.

Definition cont (c : ascii) : bool := in_range 128 191 c.

Fixpoint utf8_valid (d : bytes) : bool :=
  match d with
  | [] => true
  | c0 :: d1 =>
      if in_range 0 127 c0 then utf8_valid d1
      else match d1 with
      | [] => false
      | c1 :: d2 =>
          if in_range 194 223 c0 then cont c1 && utf8_valid d2
          else match d2 with
          | [] => false
          | c2 :: d3 =>
              if in_range 224 224 c0 then in_range 160 191 c1 && cont c2 && utf8_valid d3
              else if in_range 225 236 c0 then cont c1 && cont c2 && utf8_valid d3
              else if in_range 237 237 c0 then in_range 128 159 c1 && cont c2 && utf8_valid d3
              else if in_range 238 239 c0 then cont c1 && cont c2 && utf8_valid d3
              else match d3 with
              | [] => false
              | c3 :: d4 =>
                  if in_range 240 240 c0
                  then in_range 144 191 c1 && cont c2 && cont c3 && utf8_valid d4
                  else if in_range 241 243 c0
                  then cont c1 && cont c2 && cont c3 && utf8_valid d4
                  else if in_range 244 244 c0
                  then in_range 128 143 c1 && cont c2 && cont c3 && utf8_valid d4
                  else false
              end
          end
      end
  end.

(** [d.decode('utf-8')]: [None] stands for [UnicodeDecodeError]. *)
Definition decode (d : bytes) : option string :=
  if utf8_valid d then Some (string_of_list_ascii d) else None.

(** The input: the chunks that successive physical reads can deliver. *)
Definition stream := list bytes.

(** [raw_stdin.read(n)] on the unbuffered binary stream: at most [n] bytes,
    never more than the current chunk holds; the empty result is
    end-of-file. *)
Fixpoint read (n : nat) (s : stream) : bytes * stream :=
  match s with
  | [] => ([], [])
  | [] :: s' => read n s'
  | (_ :: _) as c :: s' =>
      if (n =? 0)%nat then ([], s)
      else (take n c, if (n <? length c)%nat then drop n c :: s' else s')
  end.

(** All the bytes that the stream will deliver. *)
Definition contents (s : stream) : bytes := concat s.

(** The stream after [k] reads of one byte. *)
Fixpoint advance (k : nat) (s : stream) : stream :=
  match k with
  | 0 => s
  | S k' => advance k' (read 1 s).2
  end.

End Wire.

Import Wire.

(** ** Response documents

    Both engines build their responses as dictionary literals of these two
    shapes. *)

Module JsonRpc.

Definition result_response (req_id result : json) : json :=
  JDict [("jsonrpc", JStr "2.0"); ("id", req_id); ("result", result)].

Definition error_response (req_id : json) (code : Z) (message : string) : json :=
  JDict [("jsonrpc", JStr "2.0"); ("id", req_id);
         ("error", JDict [("code", JInt code); ("message", JStr message)])].


Definition result_of (r : json) : option json :=
  match r with JDict d => dict_lookup d "result" | _ => None end.

(** The member [capabilities.tools] of the result of a response. *)
Definition advertised_tools (r : json) : option json :=
  match result_of r with
  | Some (JDict d) =>
      match dict_lookup d "capabilities" with
      | Some (JDict c) => dict_lookup c "tools"
      | _ => None
      end
  | _ => None
  end.

End JsonRpc.

Import JsonRpc.

(** ** The base server: [python_mcp/servers/base_server.py] *)

Module BaseServer.

(** A tool handler applied to the [arguments] of a request: the value it
    returns, or the string form [str(e)] of the [Exception] it raises. *)
Inductive handler_result :=
| Returned (result : json)
| Failed (e : string).

Definition handler := json -> handler_result.

Record McpBaseServer := {
  name : string;
  version : string;
  tools : list json;
  tool_handlers : gmap string handler;
  _shutdown_requested : bool;
  _initialized : bool
}.

(** Lines 62-72. *)
Definition __init__ (name version : string) (tools : list json) : McpBaseServer :=
  {| name := name; version := version; tools := tools;
     tool_handlers := ∅;
     _shutdown_requested := false; _initialized := false |}.

Definition set_shutdown_requested (v : bool) (self : McpBaseServer) : McpBaseServer :=
  {| name := name self; version := version self; tools := tools self;
     tool_handlers := tool_handlers self;
     _shutdown_requested := v; _initialized := _initialized self |}.

Definition set_initialized (v : bool) (self : McpBaseServer) : McpBaseServer :=
  {| name := name self; version := version self; tools := tools self;
     tool_handlers := tool_handlers self;
     _shutdown_requested := _shutdown_requested self; _initialized := v |}.

(** Lines 107-110: an assignment in [self.tool_handlers]. *)
Definition register_tool (self : McpBaseServer) (tool : string) (h : handler)
  : McpBaseServer :=
  {| name := name self; version := version self; tools := tools self;
     tool_handlers := <[tool := h]> (tool_handlers self);
     _shutdown_requested := _shutdown_requested self;
     _initialized := _initialized self |}.

(** The registrations that a server script performs after construction. *)
Definition register_all (self : McpBaseServer) (regs : list (string * handler))
  : McpBaseServer :=
  foldl (fun acc r => register_tool acc r.1 r.2) self regs.

(** Lines 112-124. *)
Definition _create_capabilities (self : McpBaseServer) : json :=
  JDict [("serverInfo", JDict [("name", JStr (name self));
                               ("version", JStr (version self))]);
         ("capabilities", JDict [("tools", JList (tools self));
                                 ("resources", JList [])]);
         ("status", JStr "initialized")].

(** [self.tool_handlers.get(tool_name)]: the keys are strings, so another
    hashable key finds nothing and an unhashable one raises. *)
Definition handlers_get (hs : gmap string handler) (tool_name : json)
  : outcome (option handler) :=
  match tool_name with
  | JStr s => Return (hs !! s)
  | JList _ | JDict _ => Raise (unhashable tool_name)
  | _ => Return None
  end.

(** [method and method.startswith('$/')], as a truth value. *)
Definition is_lsp_notification (method : json) : outcome bool :=
  if truthy method then
    match method with
    | JStr s => Return (startswith s "$/")
    | _ => Raise (no_attribute method "startswith")
    end
  else Return false.

(** The tool name of a [tool/execute] request: the field [tool_name] of
    [params], or the field [name] when that one is missing or null; [None]
    when [params] is not a dictionary. *)
Definition resolve_tool_name (params : json) : json :=
  let tool_name :=
    match params with JDict p => get p "tool_name" | _ => JNull end in
  match params with
  | JDict p => if is_none tool_name then get p "name" else tool_name
  | _ => tool_name
  end.

Definition resolve_arguments (params : json) : json :=
  match params with
  | JDict p => get_default p "arguments" (JDict [])
  | _ => JDict []
  end.

(** Lines 126-251.  The result pairs the server after the call with what
    the call returns: the response, [None], or the exception that leaves the
    function. *)
Definition _handle_request (self : McpBaseServer) (request : list (string * json))
  : McpBaseServer * outcome (option json) :=
  let method := get request "method" in
  let params := get_default request "params" (JDict []) in
  let req_id := get request "id" in
  if str_eq method "initialize" then
    let self := set_initialized true self in
    if negb (is_none req_id) then
      (self, Return (Some (result_response req_id (_create_capabilities self))))
    else
      (self, Return None)
  else if str_eq method "shutdown" then
    let self := set_shutdown_requested true self in
    if negb (is_none req_id) then
      (self, Return (Some (result_response req_id JNull)))
    else
      (self, Return None)
  else if str_eq method "exit" then
    (set_shutdown_requested true self, Return None)
  else if str_eq method "tool/execute" || str_eq method "mcp/tool/execute" then
    if is_none req_id then (self, Return None)
    else
      let tool_name := resolve_tool_name params in
      let arguments := resolve_arguments params in
      match handlers_get (tool_handlers self) tool_name with
      | Raise e => (self, Raise e)
      | Return (Some h) =>
          match h arguments with
          | Returned result =>
              (self, Return (Some (result_response req_id result)))
          | Failed e =>
              (self, Return (Some (error_response req_id (-32000)
                                     ("Tool execution error: " +:+ e))))
          end
      | Return None =>
          (self, Return (Some (error_response req_id (-32601)
                                 ("Tool not found: " +:+ str tool_name))))
      end
  else
    match is_lsp_notification method with
    | Raise e => (self, Raise e)
    | Return true => (self, Return None)
    | Return false =>
        if negb (is_none req_id) then
          (self, Return (Some (error_response req_id (-32601)
                                 ("Method not found: " +:+ str method))))
        else
          (self, Return None)
    end.

(** *** The framer

    [_read_header_and_content], lines 430-570. *)

Definition CRLF_CRLF : bytes := [CR; LF; CR; LF].
Definition LF_LF : bytes := [LF; LF].
(** The eight bytes of the text backslash-r backslash-n, twice. *)
Definition ESCAPED : bytes :=
  [BACKSLASH; "r"%char; BACKSLASH; "n"%char;
   BACKSLASH; "r"%char; BACKSLASH; "n"%char].

(** [re.search(rb'Content-Length: (\d+)', d)]: the digits of the leftmost
    match, which are the longest run after the field name. *)
Fixpoint search_content_length (d : bytes) : option bytes :=
  let here :=
    if starts_with (b "Content-Length: ") d then
      match take_while is_digit (drop 16 d) with
      | [] => None
      | ds => Some ds
      end
    else None in
  match here with
  | Some ds => Some ds
  | None => match d with [] => None | _ :: d' => search_content_length d' end
  end.

(** What [_read_header_and_content] returns: [(None, None)] or both texts. *)
Definition frame : Type := option string * option string.

Definition no_frame : frame := (None, None).

Definition decode_both (header_data content_data : bytes) : frame :=
  match decode header_data, decode content_data with
  | Some header_text, Some content_text => (Some header_text, Some content_text)
  | _, _ => no_frame
  end.

(** After the loop has seen one of the two line-break terminators: lines
    535-570. *)
Definition read_content (header_data : bytes) (s : stream) : frame * stream :=
  match search_content_length header_data with
  | None => (no_frame, s)
  | Some ds =>
      let content_length := int_of_digits ds in
      let '(content_data, s) := read content_length s in
      if negb (length content_data =? content_length)%nat then (no_frame, s)
      else (decode_both header_data content_data, s)
  end.

(** The branch taken when the escaped terminator is seen: lines 474-518.
    [bytes_needed] is a natural number: where the Python difference is
    negative it is 0 here, and in both cases nothing more is read. *)
Definition read_content_escaped (header_data : bytes) (s : stream) : frame * stream :=
  let pos := Z.to_nat (find ESCAPED header_data + 8) in
  let content_start := drop pos header_data in
  match search_content_length header_data with
  | None => (no_frame, s)
  | Some ds =>
      let content_length := int_of_digits ds in
      let bytes_needed := content_length - length content_start in
      let '(remaining_content, s) :=
        if (0 <? bytes_needed)%nat then read bytes_needed s else ([], s) in
      let content_data := content_start ++ remaining_content in
      (decode_both (take pos header_data) content_data, s)
  end.

(** The header loop of lines 443-524, one byte per iteration; [None] only
    if [fuel] runs out. *)
Fixpoint header_loop (fuel : nat) (header_data : bytes) (s : stream)
  : option (frame * stream) :=
  match fuel with
  | 0 => None
  | S fuel' =>
      let '(chunk, s) := read 1 s in
      match chunk with
      | [] => Some (no_frame, s)
      | _ :: _ =>
          let header_data := header_data ++ chunk in
          if contains CRLF_CRLF header_data then Some (read_content header_data s)
          else if contains LF_LF header_data then Some (read_content header_data s)
          else if contains ESCAPED header_data
          then Some (read_content_escaped header_data s)
          else if (4096 <? length header_data)%nat then Some (no_frame, s)
          else header_loop fuel' header_data s
      end
  end.

(** The loop stops by itself once 4097 bytes are held, so 4097 iterations
    are enough (lemma [header_loop_total]). *)
Definition _read_header_and_content (s : stream) : frame * stream :=
  default (no_frame, s) (header_loop 4097 [] s).

(** *** The message loop

    [_run_message_loop], lines 330-423. *)

(** The ASCII characters that [\s] matches in a text pattern. *)
Definition is_space (c : ascii) : bool := in_range 9 13 c || in_range 28 32 c.

(** The pattern of the recovery path, anchored at the start of [d]: the
    quoted word id, optional spaces, a colon, optional spaces, and then the
    group, which is either a run of digits or a quoted text without a quote
    inside.  The result is the text of the group. *)
Definition match_id (d : bytes) : option bytes :=
  if starts_with (DQUOTE :: b "id" ++ [DQUOTE]) d then
    match drop_while is_space (drop 4 d) with
    | c :: d1 =>
        if bool_decide (c = ":"%char) then
          match drop_while is_space d1 with
          | c1 :: d2 =>
              if is_digit c1 then Some (take_while is_digit (c1 :: d2))
              else if bool_decide (c1 = DQUOTE) then
                if bool_decide (DQUOTE ∈ d2) then
                  Some (DQUOTE :: take_while (fun x => negb (bool_decide (x = DQUOTE))) d2
                          ++ [DQUOTE])
                else None
              else None
          | [] => None
          end
        else None
    | [] => None
    end
  else None.

(** [re.search] of that pattern: the leftmost match. *)
Fixpoint search_id (d : bytes) : option bytes :=
  match match_id d with
  | Some g => Some g
  | None => match d with [] => None | _ :: d' => search_id d' end
  end.

(** The truth value of an optional text: [None] and the empty text are
    false. *)
Definition text_truthy (t : option string) : bool :=
  match t with None => false | Some s => negb (String.eqb s "") end.

Section MessageLoop.

(** [json.loads]; [None] stands for [JSONDecodeError]. *)
Variable json_loads : string -> option json.

(** The handler of [except Exception as e] around the dispatch, lines
    386-412: the responses it sends. *)
Definition recover (e : exn) (content_text : string) : list json :=
  let request_id :=
    match search_id (b content_text) with
    | Some id_str => default JNull (json_loads (string_of_list_ascii id_str))
    | None => JNull
    end in
  if negb (is_none request_id) then
    [error_response request_id (-32603) ("Internal error: " +:+ exn_str e)]
  else [].

(** One iteration of the [while] loop, lines 339-412: the new server state,
    the rest of the input and the responses handed to [_send_response]. *)
Definition loop_body (self : McpBaseServer) (s : stream)
  : McpBaseServer * stream * list json :=
  let '((header_text, content_text), s) := _read_header_and_content s in
  match header_text, content_text with
  | Some _, Some content =>
      match json_loads content with
      | None => (self, s, [])
      | Some (JDict request) =>
          match _handle_request self request with
          | (self, Return (Some response)) =>
              if truthy response then (self, s, [response]) else (self, s, [])
          | (self, Return None) => (self, s, [])
          | (self, Raise e) => (self, s, recover e content)
          end
      | Some _ => (self, s, [])
      end
  | _, _ =>
      if negb (text_truthy header_text) && negb (text_truthy content_text)
      then (set_shutdown_requested true self, s, [])
      else (self, s, [])
  end.

Fixpoint run_loop (fuel : nat) (self : McpBaseServer) (s : stream)
  : McpBaseServer * stream * list json :=
  match fuel with
  | 0 => (self, s, [])
  | S fuel' =>
      if _shutdown_requested self then (self, s, [])
      else
        let '(self, s, out) := loop_body self s in
        let '(self, s, out') := run_loop fuel' self s in
        (self, s, out ++ out')
  end.

(** Every iteration that does not request the shutdown consumes input, so
    one iteration per byte and one more suffice (lemma
    [run_message_loop_stops]). *)
Definition _run_message_loop (self : McpBaseServer) (s : stream)
  : McpBaseServer * stream * list json :=
  run_loop (S (length (contents s))) self s.

End MessageLoop.

End BaseServer.

Import BaseServer.

(** ** The demonstration server at the end of [base_server.py]

    Lines 575-593. *)

Module EchoServer.

Definition handle_echo : handler := fun args =>
  match args with
  | JDict a =>
      Returned (JDict [("message",
                        JStr ("Echo: " +:+ str (get_default a "text" (JStr "No text provided"))))])
  | _ => Failed (exn_str (no_attribute args "get"))
  end.

Definition handle_fail : handler := fun _ =>
  Failed "This tool failed intentionally!".

Definition tools : list json :=
  [JDict [("name", JStr "echo"); ("description", JStr "Echoes back the input")];
   JDict [("name", JStr "fail"); ("description", JStr "A tool designed to fail")]].

Definition server : McpBaseServer :=
  register_tool
    (register_tool (__init__ "echo-server" "1.0.0" tools) "echo" handle_echo)
    "fail" handle_fail.

End EchoServer.

(** ** The embedding server: [mcp_embedding_server/server.py] *)

Module EmbeddingServer.

(** The result of every initialization response of [handle_jsonrpc]: lines
    243-258 and 337-352. *)
Definition initialize_result : json :=
  JDict [("serverInfo", JDict [("name", JStr "embedding-mcp");
                               ("version", JStr "1.0.0")]);
         ("capabilities",
          JDict [("tools",
                  JList [JDict [("name", JStr "embed");
                                ("description",
                                 JStr "Generate embeddings from text using E5 models")]]);
                 ("resources", JList [])]);
         ("status", JStr "initialized")].

(** Written before the first message is read: lines 240-271. *)
Definition initialization_response : json :=
  result_response (JInt 4) initialize_result.

(** The loop that reads the body, lines 314-322: [sys.stdin.read] returns
    at most the number of characters asked for, and the loop asks again for
    the rest.  The inner [None] is the unexpected end of input. *)
Fixpoint read_content_loop (fuel : nat) (content : bytes) (remaining : nat)
    (s : stream) : option (option bytes * stream) :=
  match fuel with
  | 0 => None
  | S fuel' =>
      if (0 <? remaining)%nat then
        let '(chunk, s) := read (min 1024 remaining) s in
        match chunk with
        | [] => Some (None, s)
        | _ :: _ =>
            read_content_loop fuel' (content ++ chunk) (remaining - length chunk) s
        end
      else Some (Some content, s)
  end.

(** [remaining] decreases in every iteration (lemma
    [read_content_loop_total]). *)
Definition read_content (content_length : nat) (s : stream) : option bytes * stream :=
  default (None, s) (read_content_loop (S content_length) [] content_length s).


Section Process.

(** [embed(arguments)] followed by [.data]: library and model code. *)
Variable embed : json -> handler_result.

(** What the default path, [dispatch] of [jsonrpcserver] followed by
    [send_response], writes for a request. *)
Variable dispatch : json -> list json.



End Process.

End EmbeddingServer.

(** ** A compliant peer

    The sender's side of the wire, used to build concrete inputs: the
    default [json.dumps] layout for documents whose strings are ASCII, the
    framing that [_send_response] also writes, and a decoder that inverts
    the serialisation on a given list of documents. *)

Module Peer.

Definition dumps_char (c : ascii) : bytes :=
  if bool_decide (c = DQUOTE) then [BACKSLASH; DQUOTE]
  else if bool_decide (c = BACKSLASH) then [BACKSLASH; BACKSLASH]
  else if bool_decide (c = LF) then [BACKSLASH; "n"%char]
  else if bool_decide (c = CR) then [BACKSLASH; "r"%char]
  else if bool_decide (c = TAB) then [BACKSLASH; "t"%char]
  else if bool_decide (c = "008"%char) then [BACKSLASH; "b"%char]
  else if bool_decide (c = "012"%char) then [BACKSLASH; "f"%char]
  else if (N_of_ascii c <? 32)%N then
    [BACKSLASH; "u"%char; "0"%char; "0"%char;
     hex_digit (N_of_ascii c / 16); hex_digit (N_of_ascii c mod 16)]
  else [c].

Definition dumps_str (s : string) : string :=
  string_of_list_ascii (DQUOTE :: flat_map dumps_char (list_ascii_of_string s) ++ [DQUOTE]).

Fixpoint dumps (v : json) : string :=
  match v with
  | JNull => "null"
  | JBool true => "true"
  | JBool false => "false"
  | JInt z => pretty z
  | JStr s => dumps_str s
  | JList l => "[" +:+ String.concat ", " (map dumps l) +:+ "]"
  | JDict d =>
      "{" +:+ String.concat ", "
                (map (fun kv => dumps_str kv.1 +:+ ": " +:+ dumps kv.2) d) +:+ "}"
  end.

(** A header in the canonical form, closed by [terminator]. *)
Definition header (terminator : bytes) (content_length : nat) : bytes :=
  b ("Content-Length: " +:+ pretty content_length) ++ terminator.

Definition message (v : json) : bytes :=
  let body := b (dumps v) in
  header CRLF_CRLF (length body) ++ body.

(** The decoder restricted to the documents [docs]. *)
Definition loads_among (docs : list json) (text : string) : option json :=
  List.find (fun v => String.eqb (dumps v) text) docs.

End Peer.

(** ** Concrete messages and servers used in the examples *)

Module Samples.

(** The facade of [memstore.py]: no tools and no handlers. *)
Definition memstore : McpBaseServer := __init__ "memory-store-mcp" "1.0.0" [].

Definition request (id : json) (method : string) (rest : list (string * json))
  : list (string * json) :=
  [("jsonrpc", JStr "2.0"); ("id", id); ("method", JStr method)] ++ rest.

Definition notification (method : string) : list (string * json) :=
  [("jsonrpc", JStr "2.0"); ("method", JStr method)].

Definition initialize_request := request (JInt 1) "initialize" [].
Definition initialize_notification := notification "initialize".
Definition execute_echo :=
  request (JInt 2) "tool/execute"
    [("params", JDict [("tool_name", JStr "echo");
                       ("arguments", JDict [("text", JStr "hi")])])].
Definition execute_fail :=
  request (JInt 5) "tool/execute" [("params", JDict [("name", JStr "fail")])].
Definition execute_unknown :=
  request (JInt 6) "tool/execute" [("params", JDict [("tool_name", JStr "nosuch")])].
Definition execute_list_params :=
  request (JStr "r-9") "mcp/tool/execute" [("params", JList [JStr "echo"])].
Definition progress_request := request (JInt 7) "$/progress" [].
Definition ping_request := request (JInt 8) "ping" [].
Definition shutdown_request := request (JInt 3) "shutdown" [].
Definition exit_notification := notification "exit".
Definition numeric_method : list (string * json) :=
  [("jsonrpc", JStr "2.0"); ("id", JInt 9); ("method", JInt 7)].

(** The decoder of the documents above. *)
Definition loads : string → option json :=
  Peer.loads_among
    (map JDict [initialize_request; initialize_notification; execute_echo;
                execute_fail; execute_unknown; execute_list_params;
                progress_request; ping_request; shutdown_request;
                exit_notification; numeric_method]
     ++ [JInt 9]).

(** Input streams. *)
Definition ping_body : bytes := b (Peer.dumps (JDict ping_request)).
Definition ping_message : bytes := Peer.message (JDict ping_request).

(** One well-formed frame whose body arrives in two pieces, with each of
    two terminators. *)
Definition split_ping : stream :=
  [Peer.header CRLF_CRLF (length ping_body); take 10 ping_body; drop 10 ping_body].
Definition split_ping_escaped : stream :=
  [Peer.header ESCAPED (length ping_body); take 10 ping_body; drop 10 ping_body].

(** A malformed frame followed by a well-formed request. *)
Definition missing_length : stream :=
  [b "Content-Type: application/json" ++ CRLF_CRLF ++ ping_message].
Definition oversized_header : stream :=
  [replicate 4097 "A"%char ++ ping_message].
Definition invalid_utf8 : stream :=
  [Peer.header CRLF_CRLF 2 ++ [ascii_of_nat 195; ascii_of_nat 40] ++ ping_message].

Definition handshake : stream :=
  [Peer.message (JDict initialize_request); Peer.message (JDict execute_echo);
   Peer.message (JDict shutdown_request); Peer.message (JDict exit_notification)].

(** One frame per terminator, delivered in pieces that cut the header. *)
Definition framed (terminator : bytes) : stream :=
  [b "Content-"; b "Length: 2" ++ take 1 terminator;
   drop 1 terminator ++ b "{}" ++ b "Content-Length: 0"].

End Samples.

(** ** Vocabulary of the statements *)

Module Vocabulary.

(** The two shapes of what the framer returns. *)
Definition is_frame (f : frame) : Prop :=
  ∃ header_text content_text, f = (Some header_text, Some content_text).

(** The header loop leaves at [header_data]. *)
Definition terminated (header_data : bytes) : bool :=
  contains CRLF_CRLF header_data || contains LF_LF header_data
  || contains ESCAPED header_data.

(** Where the header loop goes once [header_data] holds a terminator. *)
Definition on_terminator (header_data : bytes) (s : stream) : frame * stream :=
  if contains CRLF_CRLF header_data then read_content header_data s
  else if contains LF_LF header_data then read_content header_data s
  else read_content_escaped header_data s.

(** No byte of [d] can start a terminator. *)
Definition plain (d : bytes) : Prop :=
  Forall (fun c => c ≠ CR ∧ c ≠ LF ∧ c ≠ BACKSLASH) d.

Definition all_ascii (d : bytes) : bool := forallb (in_range 0 127) d.

(** The three accepted terminators. *)
Definition is_terminator (t : bytes) : Prop :=
  t = CRLF_CRLF ∨ t = LF_LF ∨ t = ESCAPED.

(** The header of the wire format with the digits [ds] of the length. *)
Definition header_of (ds terminator : bytes) : bytes :=
  b "Content-Length: " ++ ds ++ terminator.

End Vocabulary.

(** ** Writing responses

    [_send_response] of [base_server.py] (lines 253-290) and
    [send_response] and [send_error_response] of the embedding server
    (lines 474-548).  The output is the list of the writes performed so
    far; a write either puts all its bytes or raises, as a blocking write
    on a pipe does.  [json.dumps] is a parameter, and so is the device,
    which tells what a write does given the writes before it. *)

Module Output.

Inductive write_result :=
| Written
| RaisesIOError
| RaisesOther.

(** The header that both writers build:
    [f"Content-Length: {content_length}\r\n\r\n"]. *)
Definition frame_header (content_length : nat) : bytes :=
  b ("Content-Length: " +:+ pretty content_length) ++ CRLF_CRLF.

Section Writers.

Variable json_dumps : json -> string.
Variable device : list bytes -> bytes -> write_result.

(** Base server: one write of header and body; after an [IOError] the
    header and the body are written separately; every other failure ends
    the attempt.  Nothing is raised to the caller. *)
Definition _send_response (out : list bytes) (response : json) : list bytes :=
  let response_bytes := b (json_dumps response) in
  let content_length := length response_bytes in
  let header := frame_header content_length in
  match device out (header ++ response_bytes) with
  | Written => out ++ [header ++ response_bytes]
  | RaisesIOError =>
      match device out header with
      | Written =>
          match device (out ++ [header]) response_bytes with
          | Written => out ++ [header; response_bytes]
          | _ => out ++ [header]
          end
      | _ => out
      end
  | RaisesOther => out
  end.

(** Embedding server: the header, then the body; a failure of either write
    is logged and ends the attempt. *)
Definition send_response (out : list bytes) (response : json) : list bytes :=
  let response_bytes := b (json_dumps response) in
  let content_length := length response_bytes in
  let header_bytes := frame_header content_length in
  match device out header_bytes with
  | Written =>
      match device (out ++ [header_bytes]) response_bytes with
      | Written => out ++ [header_bytes; response_bytes]
      | _ => out ++ [header_bytes]
      end
  | _ => out
  end.

Definition send_error_response (out : list bytes) (code : Z) (message : string)
    (request_id : json) : list bytes :=
  send_response out (error_response request_id code message).

End Writers.

(** The device on which every write succeeds. *)
Definition reliable : list bytes -> bytes -> write_result := fun _ _ => Written.

End Output.

(** ** The command server: [python_mcp/servers/command_mcp.py] *)

Module CommandServer.

(** What [subprocess.run] does: it completes with an exit code and the two
    captured texts, or raises. *)
Inductive run_result :=
| Completed (returncode : Z) (stdout stderr : string)
| TimeoutExpired
| FileNotFoundError
| PermissionError
| OtherException (e : string).

(** [isinstance(v, str)], [isinstance(v, int)] (which holds for the two
    booleans) and [isinstance(v, list)]. *)
Definition is_str (v : json) : bool :=
  match v with JStr _ => true | _ => false end.

Definition is_int (v : json) : bool :=
  match v with JInt _ | JBool _ => true | _ => false end.

Definition is_list (v : json) : bool :=
  match v with JList _ => true | _ => false end.

(** [v <= 0] for an [int]: [True] counts as 1 and [False] as 0. *)
Definition le_zero (v : json) : bool :=
  match v with
  | JInt z => (z <=? 0)%Z
  | JBool bv => negb bv
  | _ => false
  end.

(** The strings of a list of strings. *)
Definition strings_of (l : list json) : list string :=
  omap (fun v => match v with JStr s => Some s | _ => None end) l.

Section Tools.

(** [os.path.isdir], [subprocess.run] applied to the command line, the
    working directory and the timeout, and [os.environ]. *)
Variable isdir : string -> bool.
Variable run : list string -> option string -> json -> run_result.
Variable environ : gmap string string.

(** Lines 16-112. *)
Definition execute_command : handler := fun args =>
  match args with
  | JDict a =>
      let command := get a "command" in
      let cmd_args := get a "args" in
      let working_dir := get a "working_dir" in
      let timeout_secs := get a "timeout_secs" in
      if negb (truthy command) || negb (is_str command) then
        Failed "Missing or invalid required field: command (string)"
      else if negb (is_none cmd_args)
              && (negb (is_list cmd_args)
                  || negb (match cmd_args with
                           | JList l => forallb is_str l
                           | _ => false
                           end)) then
        Failed "Invalid field: args must be a list of strings"
      else if negb (is_none working_dir) && negb (is_str working_dir) then
        Failed "Invalid field: working_dir must be a string"
      else if negb (is_none timeout_secs)
              && (negb (is_int timeout_secs) || le_zero timeout_secs) then
        Failed "Invalid field: timeout_secs must be a positive integer"
      else
        let cmd_args := match cmd_args with JList l => strings_of l | _ => [] end in
        let full_cmd := str command :: cmd_args in
        if truthy working_dir && negb (isdir (str working_dir)) then
          Failed ("Working directory not found: " +:+ str working_dir)
        else
          let cwd := if truthy working_dir then Some (str working_dir) else None in
          match run full_cmd cwd timeout_secs with
          | Completed returncode stdout stderr =>
              Returned (JDict [("exit_code", JInt returncode);
                               ("stdout", JStr stdout);
                               ("stderr", JStr stderr);
                               ("success", JBool (returncode =? 0)%Z)])
          | TimeoutExpired =>
              Returned (JDict [("exit_code", JNull);
                               ("stdout", JStr "");
                               ("stderr",
                                JStr ("Command execution timed out after "
                                        +:+ str timeout_secs +:+ " seconds"));
                               ("success", JBool false);
                               ("error", JStr "TimeoutExpired")])
          | FileNotFoundError =>
              Returned (JDict [("exit_code", JInt (-1));
                               ("stdout", JStr "");
                               ("stderr", JStr ("Command not found: " +:+ str command));
                               ("success", JBool false);
                               ("error", JStr "FileNotFoundError")])
          | PermissionError =>
              Returned (JDict [("exit_code", JInt (-1));
                               ("stdout", JStr "");
                               ("stderr",
                                JStr ("Permission denied executing command: "
                                        +:+ str command));
                               ("success", JBool false);
                               ("error", JStr "PermissionError")])
          | OtherException e =>
              Returned (JDict [("exit_code", JInt (-1));
                               ("stdout", JStr "");
                               ("stderr",
                                JStr ("Unexpected error executing command: " +:+ e));
                               ("success", JBool false);
                               ("error", JStr "ExecutionError")])
          end
  | _ => Failed (exn_str (no_attribute args "get"))
  end.

(** Lines 114-133. *)
Definition get_environment_variable : handler := fun args =>
  match args with
  | JDict a =>
      let var_name := get a "name" in
      if negb (truthy var_name) || negb (is_str var_name) then
        Failed "Missing or invalid required field: name (string)"
      else
        let value := environ !! str var_name in
        let exists_ := bool_decide (is_Some value) in
        Returned (JDict [("value", from_option JStr JNull value);
                         ("exists", JBool exists_)])
  | _ => Failed (exn_str (no_attribute args "get"))
  end.

(** Lines 135-150: the descriptors and the server that [main] runs. *)
Definition tools : list json :=
  [JDict [("name", JStr "execute_command");
          ("description", JStr "Executes a shell command and returns its output");
          ("schema", JNull)];
   JDict [("name", JStr "get_environment_variable");
          ("description", JStr "Gets the value of an environment variable");
          ("schema", JNull)]].

Definition server : McpBaseServer :=
  register_tool
    (register_tool (__init__ "command-mcp" "1.0.0" tools)
       "execute_command" execute_command)
    "get_environment_variable" get_environment_variable.

End Tools.

End CommandServer.

(** ** The filesystem server: [python_mcp/servers/filesystem_mcp.py]

    The file system is a state of an abstract type; what [os], [shutil] and
    the file objects do with it is given by parameters.  A tool that writes
    returns the new state besides its result. *)

Module FilesystemServer.

Import CommandServer.

(** What a call that only inspects the file system does: it returns, or
    raises an [OSError] whose string form is recorded. *)
Inductive os_result (A : Type) :=
| Ok (a : A)
| OSError (e : string).
Arguments Ok {A} a.
Arguments OSError {A} e.

(** What reading a file as UTF-8 text does. *)
Inductive read_result :=
| Content (text : string)
| ReadOSError (e : string)
| UnicodeDecodeError (e : string).

(** An entry of [os.scandir] with the answers of its methods. *)
Record DirEntry := {
  entry_name : string;
  entry_path : string;
  entry_is_dir : os_result bool;
  entry_is_file : os_result bool;
  entry_st_size : os_result Z
}.

(** The value of an [int], [True] being 1 and [False] 0. *)
Definition int_value (v : json) : option Z :=
  match v with
  | JInt z => Some z
  | JBool bv => Some (if bv then 1 else 0)%Z
  | _ => None
  end.

(** The argument of [f.read] in [read_file], lines 86-90: [max_size] when
    it is given and not negative, and none otherwise. *)
Definition size_limit (max_size : json) : option Z :=
  match int_value max_size with
  | Some z => if (0 <=? z)%Z then Some z else None
  | None => None
  end.

Definition path_error : string := "Missing or invalid required field: path (string)".

(** Lines 35-55: the description of one entry. *)
Definition placeholder (entry : DirEntry) (e : string) : json :=
  JDict [("name", JStr (entry_name entry)); ("path", JStr (entry_path entry));
         ("is_directory", JNull); ("size", JNull); ("error", JStr e)].

Definition file_info (entry : DirEntry) : json :=
  match entry_is_dir entry with
  | OSError e => placeholder entry e
  | Ok is_dir =>
      match entry_is_file entry with
      | OSError e => placeholder entry e
      | Ok false =>
          JDict [("name", JStr (entry_name entry)); ("path", JStr (entry_path entry));
                 ("is_directory", JBool is_dir); ("size", JNull)]
      | Ok true =>
          match entry_st_size entry with
          | OSError e => placeholder entry e
          | Ok size =>
              JDict [("name", JStr (entry_name entry));
                     ("path", JStr (entry_path entry));
                     ("is_directory", JBool is_dir); ("size", JInt size)]
          end
      end
  end.

Section Tools.

(** The states of the file system and the library calls of the module:
    [os.path.abspath] (which asks for the working directory),
    [os.path.exists], [os.path.isdir], [os.path.dirname], the iteration of
    [os.scandir], [open] followed by [read], and [os.getcwd]; then the calls
    that change the state, each with the [OSError] it may raise:
    [os.makedirs], [open] followed by [write], [shutil.rmtree] and
    [os.remove]. *)
Variable FS : Type.
Variable abspath : FS -> string -> os_result string.
Variable exists_ : FS -> string -> bool.
Variable isdir : FS -> string -> bool.
Variable dirname : string -> string.
Variable scandir : FS -> string -> os_result (list DirEntry).
Variable read_text : FS -> string -> option Z -> read_result.
Variable getcwd : FS -> os_result string.
Variable makedirs : FS -> string -> option string * FS.
Variable write_text : FS -> string -> string -> option string * FS.
Variable rmtree : FS -> string -> option string * FS.
Variable remove : FS -> string -> option string * FS.

(** Lines 16-61. *)
Definition list_directory (fs : FS) : handler := fun args =>
  match args with
  | JDict a =>
      let path_str := get a "path" in
      if negb (truthy path_str) || negb (is_str path_str) then Failed path_error
      else
        match abspath fs (str path_str) with
        | OSError e => Failed e
        | Ok abs_path =>
            if negb (exists_ fs abs_path) then
              Failed ("Directory not found: " +:+ abs_path)
            else if negb (isdir fs abs_path) then
              Failed ("Path is not a directory: " +:+ abs_path)
            else
              match scandir fs abs_path with
              | OSError e =>
                  Failed ("Could not list directory " +:+ abs_path +:+ ": " +:+ e)
              | Ok entries => Returned (JDict [("files", JList (map file_info entries))])
              end
        end
  | _ => Failed (exn_str (no_attribute args "get"))
  end.

(** Lines 63-99. *)
Definition read_file (fs : FS) : handler := fun args =>
  match args with
  | JDict a =>
      let path_str := get a "path" in
      let max_size := get a "max_size" in
      if negb (truthy path_str) || negb (is_str path_str) then Failed path_error
      else if negb (is_none max_size) && negb (is_int max_size) then
        Failed "Invalid field: max_size must be an integer"
      else
        match abspath fs (str path_str) with
        | OSError e => Failed e
        | Ok abs_path =>
            if negb (exists_ fs abs_path) then Failed ("File not found: " +:+ abs_path)
            else if isdir fs abs_path then
              Failed ("Path is a directory, not a file: " +:+ abs_path)
            else
              match read_text fs abs_path (size_limit max_size) with
              | Content content => Returned (JDict [("content", JStr content)])
              | ReadOSError e =>
                  Failed ("Could not read file " +:+ abs_path +:+ ": " +:+ e)
              | UnicodeDecodeError e =>
                  Failed ("File " +:+ abs_path +:+ " is not valid UTF-8: " +:+ e)
              end
        end
  | _ => Failed (exn_str (no_attribute args "get"))
  end.

(** Lines 101-135: the result and the file system after the call. *)
Definition write_file (fs : FS) (args : json) : handler_result * FS :=
  match args with
  | JDict a =>
      let path_str := get a "path" in
      let content := get a "content" in
      let create_dirs := get_default a "create_dirs" (JBool false) in
      if negb (truthy path_str) || negb (is_str path_str) then (Failed path_error, fs)
      else if is_none content || negb (is_str content) then
        (Failed "Missing or invalid required field: content (string)", fs)
      else
        match create_dirs with
        | JBool create =>
            match abspath fs (str path_str) with
            | OSError e => (Failed e, fs)
            | Ok abs_path =>
                if isdir fs abs_path then
                  (Failed ("Path exists and is a directory: " +:+ abs_path), fs)
                else
                  let could_not e :=
                    Failed ("Could not write file " +:+ abs_path +:+ ": " +:+ e) in
                  let '(raised, fs) :=
                    if create && negb (exists_ fs (dirname abs_path))
                    then makedirs fs (dirname abs_path) else (None, fs) in
                  match raised with
                  | Some e => (could_not e, fs)
                  | None =>
                      let '(raised, fs) := write_text fs abs_path (str content) in
                      match raised with
                      | Some e => (could_not e, fs)
                      | None => (Returned (JDict [("success", JBool true)]), fs)
                      end
                  end
            end
        | _ => (Failed "Invalid field: create_dirs must be a boolean", fs)
        end
  | _ => (Failed (exn_str (no_attribute args "get")), fs)
  end.

(** Lines 137-163. *)
Definition delete_file (fs : FS) (args : json) : handler_result * FS :=
  match args with
  | JDict a =>
      let path_str := get a "path" in
      if negb (truthy path_str) || negb (is_str path_str) then (Failed path_error, fs)
      else
        match abspath fs (str path_str) with
        | OSError e => (Failed e, fs)
        | Ok abs_path =>
            if negb (exists_ fs abs_path) then
              (Failed ("File or directory not found: " +:+ abs_path), fs)
            else
              let '(raised, fs) :=
                if isdir fs abs_path then rmtree fs abs_path else remove fs abs_path in
              match raised with
              | Some e => (Failed ("Could not delete " +:+ abs_path +:+ ": " +:+ e), fs)
              | None => (Returned (JDict [("success", JBool true)]), fs)
              end
        end
  | _ => (Failed (exn_str (no_attribute args "get")), fs)
  end.

(** Lines 165-174: the arguments are not looked at. *)
Definition get_current_dir (fs : FS) : handler := fun _ =>
  match getcwd fs with
  | Ok cwd => Returned (JDict [("path", JStr cwd)])
  | OSError e => Failed ("Could not get current working directory: " +:+ e)
  end.

(** Lines 178-199. *)
Definition tools : list json :=
  [JDict [("name", JStr "list_directory");
          ("description", JStr "Lists files in a directory"); ("schema", JNull)];
   JDict [("name", JStr "read_file");
          ("description", JStr "Reads the content of a file"); ("schema", JNull)];
   JDict [("name", JStr "write_file");
          ("description", JStr "Writes content to a file"); ("schema", JNull)];
   JDict [("name", JStr "delete_file");
          ("description", JStr "Deletes a file or directory"); ("schema", JNull)];
   JDict [("name", JStr "get_current_dir");
          ("description", JStr "Gets the current working directory");
          ("schema", JNull)]].

(** The server that [main] runs, seen while the file system is [fs]: the
    dispatcher hands the result of a tool to the response. *)
Definition server (fs : FS) : McpBaseServer :=
  register_all (__init__ "filesystem-mcp" "1.0.0" tools)
    [("list_directory", list_directory fs); ("read_file", read_file fs);
     ("write_file", fun args => (write_file fs args).1);
     ("delete_file", fun args => (delete_file fs args).1);
     ("get_current_dir", get_current_dir fs)].

End Tools.

End FilesystemServer.

(** The names that a list of descriptors advertises. *)
Definition advertised_names (tools : list json) : list string :=
  omap (fun d => match d with
                 | JDict fields =>
                     match get fields "name" with JStr n => Some n | _ => None end
                 | _ => None
                 end) tools.

(** The methods that [_handle_request] knows by name. *)
Definition named_method (m : string) : Prop :=
  m = "initialize" ∨ m = "shutdown" ∨ m = "exit" ∨ m = "tool/execute"
  ∨ m = "mcp/tool/execute".

(** ** Further concrete inputs *)

Module Inputs.

(** A response as the dispatcher builds it. *)
Definition shutdown_response : json := result_response (JInt 3) JNull.

(** A frame whose body is a JSON number, followed by a request. *)
Definition number_then_ping : stream :=
  [Peer.message (JInt 9) ++ Samples.ping_message].

(** An [exit] notification followed by a request. *)
Definition exit_then_ping : stream :=
  [Peer.message (JDict Samples.exit_notification) ++ Samples.ping_message].

(** A header that is cut off before its terminator. *)
Definition cut_header : stream := [b "Content-"; b "Length: 45"].

(** What the examples of the command server run on: one directory, a few
    programs and one environment variable. *)
Definition isdir (d : string) : bool := String.eqb d "/tmp".

Definition run (cmd : list string) (cwd : option string) (timeout : json)
  : CommandServer.run_result :=
  match cmd with
  | [] => CommandServer.OtherException "empty command line"
  | c :: words =>
      if String.eqb c "echo" then CommandServer.Completed 0 (String.concat " " words) ""
      else if String.eqb c "false" then CommandServer.Completed 1 "" ""
      else if String.eqb c "sleep" then CommandServer.TimeoutExpired
      else CommandServer.FileNotFoundError
  end.

Definition environ : gmap string string := {["HOME" := "/root"]}.

Definition echo_arguments : list (string * json) :=
  [("command", JStr "echo"); ("args", JList [JStr "a"; JStr "b"]);
   ("working_dir", JStr "/tmp"); ("timeout_secs", JInt 5)].

Definition missing_directory_arguments : list (string * json) :=
  [("command", JStr "echo"); ("working_dir", JStr "/nowhere")].

Definition home_request : list (string * json) :=
  Samples.request (JInt 11) "mcp/tool/execute"
    [("params", JDict [("name", JStr "get_environment_variable");
                       ("arguments", JDict [("name", JStr "HOME")])])].

(** A file system for the examples of the filesystem server: the texts of
    the files by path; every path is absolute, [/tmp] is the only directory
    and nothing but files can be created or removed. *)
Definition FS : Type := gmap string string.

Definition abspath (fs : FS) (path : string) : FilesystemServer.os_result string :=
  FilesystemServer.Ok path.

Definition fs_isdir (fs : FS) (path : string) : bool := String.eqb path "/tmp".

Definition fs_exists (fs : FS) (path : string) : bool :=
  fs_isdir fs path || bool_decide (is_Some (fs !! path)).

Definition dirname (path : string) : string := "/tmp".

Definition scandir (fs : FS) (path : string)
  : FilesystemServer.os_result (list FilesystemServer.DirEntry) :=
  FilesystemServer.Ok
    (map (fun f =>
            {| FilesystemServer.entry_name := f.1;
               FilesystemServer.entry_path := f.1;
               FilesystemServer.entry_is_dir := FilesystemServer.Ok false;
               FilesystemServer.entry_is_file := FilesystemServer.Ok true;
               FilesystemServer.entry_st_size :=
                 FilesystemServer.Ok (Z.of_nat (String.length f.2)) |})
         (map_to_list fs)).

Definition read_text (fs : FS) (path : string) (limit : option Z)
  : FilesystemServer.read_result :=
  match fs !! path with
  | Some text =>
      FilesystemServer.Content
        (match limit with
         | Some n => String.substring 0 (Z.to_nat n) text
         | None => text
         end)
  | None => FilesystemServer.ReadOSError "No such file or directory"
  end.

Definition getcwd (fs : FS) : FilesystemServer.os_result string :=
  FilesystemServer.Ok "/tmp".

Definition makedirs (fs : FS) (path : string) : option string * FS :=
  (Some "Permission denied", fs).

Definition write_text (fs : FS) (path text : string) : option string * FS :=
  (None, <[path := text]> fs).

Definition rmtree (fs : FS) (path : string) : option string * FS :=
  (Some "Permission denied", fs).

Definition remove (fs : FS) (path : string) : option string * FS :=
  (None, delete path fs).

Definition list_directory :=
  FilesystemServer.list_directory FS abspath fs_exists fs_isdir scandir.
Definition read_file :=
  FilesystemServer.read_file FS abspath fs_exists fs_isdir read_text.
Definition write_file :=
  FilesystemServer.write_file FS abspath fs_exists fs_isdir dirname makedirs write_text.
Definition delete_file :=
  FilesystemServer.delete_file FS abspath fs_exists fs_isdir rmtree remove.

Definition one_file : FS := {["/tmp/a.txt" := "hello"]}.

Definition write_arguments : list (string * json) :=
  [("path", JStr "/tmp/b.txt"); ("content", JStr "")].

Definition read_all_arguments : list (string * json) := [("path", JStr "/tmp/a.txt")].

Definition read_negative_arguments : list (string * json) :=
  [("path", JStr "/tmp/a.txt"); ("max_size", JInt (-1))].

Definition no_path_arguments : list (string * json) := [("path", JStr "")].

Definition delete_missing_arguments : list (string * json) :=
  [("path", JStr "/tmp/nothing")].

End Inputs.

(** * Properties *)

Import Vocabulary.

(** ** The dispatcher *)

Section Dispatcher.

Implicit Types (self : McpBaseServer) (request : list (string * json)).

Lemma str_eq_true v s : str_eq v s = true ↔ v = JStr s.
Proof.
  destruct v; simpl; try (split; [discriminate | discriminate]).
  rewrite String.eqb_eq. split; [intros ->; reflexivity | intros [= ->]; reflexivity].
Qed.

(** The two method names of the tool branch reach it. *)
Lemma handle_request_tool_execute self request m :
  get request "method" = JStr m →
  m = "tool/execute" ∨ m = "mcp/tool/execute" →
  is_none (get request "id") = false →
  _handle_request self request =
    let params := get_default request "params" (JDict []) in
    match handlers_get (tool_handlers self) (resolve_tool_name params) with
    | Raise e => (self, Raise e)
    | Return (Some h) =>
        match h (resolve_arguments params) with
        | Returned result =>
            (self, Return (Some (result_response (get request "id") result)))
        | Failed e =>
            (self, Return (Some (error_response (get request "id") (-32000)
                                   ("Tool execution error: " +:+ e))))
        end
    | Return None =>
        (self, Return (Some (error_response (get request "id") (-32601)
                               ("Tool not found: " +:+ str (resolve_tool_name params)))))
    end.
Proof.
  intros Hm Hname Hid. unfold _handle_request. rewrite Hm, Hid.
  destruct Hname as [-> | ->]; reflexivity.
Qed.

End Dispatcher.

Section DispatcherClaims.

Implicit Types (self : McpBaseServer) (request : list (string * json)).

Lemma register_all_tools self regs : tools (register_all self regs) = tools self.
Proof.
  revert self. induction regs as [|r regs IH]; intros self; [reflexivity|].
  unfold register_all in *. simpl. rewrite IH. reflexivity.
Qed.

Lemma register_all_name self regs :
  name (register_all self regs) = name self ∧
  version (register_all self regs) = version self.
Proof.
  revert self. induction regs as [|r regs IH]; intros self; [split; reflexivity|].
  unfold register_all in *. simpl. destruct (IH (register_tool self r.1 r.2)) as [-> ->].
  split; reflexivity.
Qed.

(** An [initialize] notification still marks the server as initialized. *)
Lemma handle_request_initialize_notification self request :
  get request "method" = JStr "initialize" →
  is_none (get request "id") = true →
  _handle_request self request = (set_initialized true self, Return None).
Proof.
  intros Hm Hid. unfold _handle_request. rewrite Hm, Hid. reflexivity.
Qed.

(** C3 (the code departs from the claim): an [initialize] message without
    an id gets no response, but the server that was not initialized is
    marked as initialized by it. *)
Theorem C3_initialize_notification_sets_initialized :
  is_none (get Samples.initialize_notification "id") = true ∧
  _initialized Samples.memstore = false ∧
  _handle_request Samples.memstore Samples.initialize_notification =
    (set_initialized true Samples.memstore, Return None) ∧
  _initialized (_handle_request Samples.memstore Samples.initialize_notification).1 = true.
Proof. repeat split. Qed.





End DispatcherClaims.

(** ** The input stream *)

Section StreamFacts.

Implicit Types (s : stream) (d : bytes).

(** A read returns a prefix of what the stream holds. *)
Lemma read_contents n s :
  contents s = (read n s).1 ++ contents (read n s).2.
Proof.
  induction s as [|c s IH]; [reflexivity|].
  destruct c as [|x c]; [exact IH|].
  cbn [read]. destruct (n =? 0)%nat eqn:En; [reflexivity|].
  cbn [fst snd]. unfold contents.
  destruct (n <? length (x :: c))%nat eqn:El.
  - change (concat ((x :: c) :: s)) with ((x :: c) ++ concat s).
    change (concat (drop n (x :: c) :: s)) with (drop n (x :: c) ++ concat s).
    rewrite app_assoc, take_drop. reflexivity.
  - apply Nat.ltb_ge in El. rewrite take_ge by exact El. reflexivity.
Qed.

Lemma read_length n s : (length (read n s).1 ≤ n)%nat.
Proof.
  induction s as [|c s IH]; [simpl; lia|].
  destruct c as [|x c]; [exact IH|].
  cbn [read]. destruct (n =? 0)%nat eqn:En; [simpl; lia|].
  cbn [fst]. rewrite length_take. lia.
Qed.

(** Reading one byte from a stream that still holds one. *)
Lemma read_one x r s :
  contents s = x :: r →
  ∃ s', read 1 s = ([x], s') ∧ contents s' = r.
Proof.
  induction s as [|c s IH]; [discriminate|].
  destruct c as [|y c]; [exact IH|].
  intros H. unfold contents in H. rewrite concat_cons in H. injection H as -> Hr.
  simpl read. destruct c as [|z c].
  - eexists. split; [reflexivity|]. exact Hr.
  - eexists. split; [reflexivity|]. exact Hr.
Qed.

Lemma read_at_end n s : contents s = [] → read n s = ([], []).
Proof.
  induction s as [|c s IH]; [reflexivity|].
  destruct c as [|y c]; [exact IH| discriminate].
Qed.

Lemma advance_contents h r s :
  contents s = h ++ r → contents (advance (length h) s) = r.
Proof.
  revert s. induction h as [|x h IH]; intros s H; [exact H|].
  destruct (read_one x (h ++ r) s H) as (s' & Hs' & Hc).
  simpl. rewrite Hs'. apply IH. exact Hc.
Qed.

End StreamFacts.

(** ** The framer of the base server *)

Section FramerFacts.

Implicit Types (s : stream) (d hd : bytes).

(** The header loop never needs more than 4097 iterations. *)
Lemma header_loop_total fuel hd s :
  (length hd ≤ 4096)%nat → (4097 ≤ fuel + length hd)%nat →
  is_Some (header_loop fuel hd s).
Proof.
  revert hd s. induction fuel as [|fuel IH]; intros hd s Hle Hfuel; [lia|].
  simpl. pose proof (read_length 1 s) as Hlen.
  destruct (read 1 s) as [chunk s'] eqn:Hr. cbn [fst] in Hlen.
  destruct chunk as [|x chunk]; [eauto|].
  destruct chunk; [|simpl in Hlen; lia].
  destruct (contains CRLF_CRLF _); [eauto|].
  destruct (contains LF_LF _); [eauto|].
  destruct (contains ESCAPED _); [eauto|].
  destruct (4096 <? length (hd ++ [x]))%nat eqn:Hcap; [eauto|].
  apply Nat.ltb_ge in Hcap. rewrite length_app in *. simpl in *.
  apply IH; rewrite length_app; simpl; lia.
Qed.

Lemma read_header_and_content_total s :
  header_loop 4097 [] s = Some (_read_header_and_content s).
Proof.
  unfold _read_header_and_content.
  destruct (header_loop_total 4097 [] s) as [r Hr]; [simpl; lia..|].
  rewrite Hr. reflexivity.
Qed.

Lemma decode_both_shape hd d : decode_both hd d = no_frame ∨ is_frame (decode_both hd d).
Proof.
  unfold decode_both. destruct (decode hd), (decode d); auto.
  right. eexists _, _. reflexivity.
Qed.

(** What the framer returns was read from the stream, and a frame costs at
    least one byte. *)
Lemma read_content_consumes hd s f s' :
  read_content hd s = (f, s') →
  (f = no_frame ∨ is_frame f) ∧ ∃ d, contents s = d ++ contents s'.
Proof.
  unfold read_content. destruct (search_content_length hd) as [ds|].
  - pose proof (read_contents (int_of_digits ds) s) as Hc.
    destruct (read (int_of_digits ds) s) as [content_data s1]. cbn [fst snd] in Hc.
    destruct (negb _); intros [= <- <-].
    + split; [auto|eauto].
    + split; [apply decode_both_shape|eauto].
  - intros [= <- <-]. split; [auto|]. exists []. reflexivity.
Qed.

Lemma read_content_escaped_consumes hd s f s' :
  read_content_escaped hd s = (f, s') →
  (f = no_frame ∨ is_frame f) ∧ ∃ d, contents s = d ++ contents s'.
Proof.
  unfold read_content_escaped. destruct (search_content_length hd) as [ds|].
  - set (n := int_of_digits ds - _). destruct (0 <? n)%nat.
    + pose proof (read_contents n s) as Hc.
      destruct (read n s) as [remaining s1]. cbn [fst snd] in Hc.
      intros [= <- <-]. split; [apply decode_both_shape|eauto].
    + intros [= <- <-]. split; [apply decode_both_shape|]. exists []. reflexivity.
  - intros [= <- <-]. split; [auto|]. exists []. reflexivity.
Qed.

Lemma header_loop_consumes fuel hd s f s' :
  header_loop fuel hd s = Some (f, s') →
  (f = no_frame ∨ is_frame f) ∧
  ∃ d, contents s = d ++ contents s' ∧ (is_frame f → d ≠ []).
Proof.
  revert hd s. induction fuel as [|fuel IH]; intros hd s; [discriminate|].
  simpl. pose proof (read_contents 1 s) as Hc.
  destruct (read 1 s) as [chunk s1]. cbn [fst snd] in Hc.
  assert (Hno : ¬ is_frame no_frame) by (intros (? & ? & [=])).
  destruct chunk as [|x chunk].
  { intros [= <- <-]. split; [auto|]. exists []. split; [exact Hc|]. intros Hf.
    destruct (Hno Hf). }
  assert (Hwrap : ∀ r : frame * stream,
            ((r.1 = no_frame ∨ is_frame r.1) ∧ ∃ d, contents s1 = d ++ contents r.2) →
            Some r = Some (f, s') →
            (f = no_frame ∨ is_frame f) ∧
            ∃ d, contents s = d ++ contents s' ∧ (is_frame f → d ≠ [])).
  { intros [f0 s0] [Hshape [d Hd]] [= -> ->]. split; [exact Hshape|].
    exists ((x :: chunk) ++ d). cbn [fst snd] in *.
    rewrite Hc, Hd, app_assoc. split; [reflexivity|]. intros _. discriminate. }
  destruct (contains CRLF_CRLF _).
  { apply Hwrap. destruct (read_content _ s1) eqn:E. eapply read_content_consumes, E. }
  destruct (contains LF_LF _).
  { apply Hwrap. destruct (read_content _ s1) eqn:E. eapply read_content_consumes, E. }
  destruct (contains ESCAPED _).
  { apply Hwrap. destruct (read_content_escaped _ s1) eqn:E.
    eapply read_content_escaped_consumes, E. }
  destruct (4096 <? _)%nat.
  { intros [= <- <-]. split; [auto|]. exists (x :: chunk). split; [exact Hc|].
    intros Hf. destruct (Hno Hf). }
  intros H. destruct (IH _ _ H) as [Hshape (d & Hd & _)]. split; [exact Hshape|].
  exists ((x :: chunk) ++ d). rewrite Hc, Hd, app_assoc. split; [reflexivity|].
  intros _. discriminate.
Qed.

Lemma read_header_and_content_consumes s f s' :
  _read_header_and_content s = (f, s') →
  (f = no_frame ∨ is_frame f) ∧
  (is_frame f → (length (contents s') < length (contents s))%nat).
Proof.
  intros H. pose proof (read_header_and_content_total s) as Ht. rewrite H in Ht.
  destruct (header_loop_consumes _ _ _ _ _ Ht) as [Hshape (d & Hd & Hne)].
  split; [exact Hshape|]. intros Hf. specialize (Hne Hf).
  rewrite Hd, length_app. destruct d; [congruence|simpl; lia].
Qed.

End FramerFacts.

(** ** The message loop of the base server *)

Section LoopFacts.

Variable json_loads : string → option json.

Implicit Types (self : McpBaseServer) (s : stream) (request : list (string * json)).

(** An iteration requests the shutdown or consumes input. *)
Lemma loop_body_progress self s :
  _shutdown_requested (loop_body json_loads self s).1.1 = true ∨
  (length (contents (loop_body json_loads self s).1.2) < length (contents s))%nat.
Proof.
  unfold loop_body.
  destruct (_read_header_and_content s) as [f s'] eqn:Hf.
  destruct (read_header_and_content_consumes _ _ _ Hf) as [[-> | Hframe] Hlt].
  - left. reflexivity.
  - right. specialize (Hlt Hframe). destruct Hframe as (h & c & ->).
    destruct (json_loads c) as [[| | | | |request]|]; try exact Hlt.
    destruct (_handle_request self request) as [self' [[response|]|e]]; try exact Hlt.
    destruct (truthy response); exact Hlt.
Qed.

(** The loop ends because the shutdown was requested, not for lack of
    fuel. *)
Lemma run_loop_stops fuel self s :
  (length (contents s) < fuel)%nat →
  _shutdown_requested (run_loop json_loads fuel self s).1.1 = true.
Proof.
  revert self s. induction fuel as [|fuel IH]; intros self s Hfuel; [lia|].
  simpl. destruct (_shutdown_requested self) eqn:Hflag; [exact Hflag|].
  pose proof (loop_body_progress self s) as Hp.
  destruct (loop_body json_loads self s) as [[self1 s1] out1]. cbn [fst snd] in Hp.
  destruct Hp as [Hset | Hlt].
  - destruct fuel as [|fuel]; simpl; [exact Hset|]. rewrite Hset. exact Hset.
  - specialize (IH self1 s1 ltac:(lia)).
    destruct (run_loop json_loads fuel self1 s1) as [[self2 s2] out2]. exact IH.
Qed.

Lemma run_message_loop_stops self s :
  _shutdown_requested (_run_message_loop json_loads self s).1.1 = true.
Proof. apply run_loop_stops. lia. Qed.

(** Once the shutdown is requested the loop reads nothing more. *)
Lemma run_loop_after_shutdown fuel self s :
  _shutdown_requested self = true →
  run_loop json_loads fuel self s = (self, s, []).
Proof. intros H. destruct fuel; simpl; [|rewrite H]; reflexivity. Qed.

(** The loop when its first iteration requests the shutdown. *)
Lemma run_message_loop_last self s self' s' out :
  _shutdown_requested self = false →
  loop_body json_loads self s = (self', s', out) →
  _shutdown_requested self' = true →
  _run_message_loop json_loads self s = (self', s', out).
Proof.
  intros Hrun Hbody Hstop. unfold _run_message_loop. cbn [run_loop].
  rewrite Hrun, Hbody, (run_loop_after_shutdown _ _ _ Hstop), app_nil_r. reflexivity.
Qed.

(** Every failure of the framer is taken for the end of the input. *)
Lemma framing_failure_stops_loop self s s' :
  _shutdown_requested self = false →
  _read_header_and_content s = (no_frame, s') →
  _run_message_loop json_loads self s = (set_shutdown_requested true self, s', []).
Proof.
  intros Hrun Hf. apply run_message_loop_last; [exact Hrun| |reflexivity].
  unfold loop_body. rewrite Hf. reflexivity.
Qed.


End LoopFacts.

(** ** Scanning the header *)

Section HeaderScan.

Implicit Types (s : stream) (d hd : bytes).

Lemma starts_with_head_ne p0 p x d : p0 ≠ x → starts_with (p0 :: p) (x :: d) = false.
Proof. intros H. simpl. rewrite bool_decide_eq_false_2 by exact H. reflexivity. Qed.

(** An occurrence cannot start on a byte other than the first of the
    pattern. *)
Lemma contains_skip p0 p x y :
  Forall (fun c => p0 ≠ c) x →
  contains (p0 :: p) (x ++ y) = contains (p0 :: p) y.
Proof.
  induction 1 as [|c x Hc _ IH]; [reflexivity|].
  change ((c :: x) ++ y) with (c :: (x ++ y)).
  cbn [contains]. rewrite (starts_with_head_ne _ _ _ _ Hc). exact IH.
Qed.

Lemma find_from_skip i p0 p x y :
  Forall (fun c => p0 ≠ c) x →
  find_from i (p0 :: p) (x ++ y) = find_from (i + Z.of_nat (length x)) (p0 :: p) y.
Proof.
  intros H. revert i. induction H as [|c x Hc _ IH]; intros i.
  - simpl app. simpl length. f_equal. lia.
  - change ((c :: x) ++ y) with (c :: (x ++ y)).
    cbn [find_from]. rewrite (starts_with_head_ne _ _ _ _ Hc), IH.
    f_equal. simpl length. lia.
Qed.

Lemma plain_no_CR d : plain d → Forall (fun c => CR ≠ c) d.
Proof. intros Hd. eapply Forall_impl; [exact Hd|]. intros c (H & _ & _). congruence. Qed.

Lemma plain_no_LF d : plain d → Forall (fun c => LF ≠ c) d.
Proof. intros Hd. eapply Forall_impl; [exact Hd|]. intros c (_ & H & _). congruence. Qed.

Lemma plain_no_BACKSLASH d : plain d → Forall (fun c => BACKSLASH ≠ c) d.
Proof. intros Hd. eapply Forall_impl; [exact Hd|]. intros c (_ & _ & H). congruence. Qed.

Lemma contains_terminator_skip x y :
  plain x →
  contains CRLF_CRLF (x ++ y) = contains CRLF_CRLF y ∧
  contains LF_LF (x ++ y) = contains LF_LF y ∧
  contains ESCAPED (x ++ y) = contains ESCAPED y.
Proof.
  intros H. unfold CRLF_CRLF, LF_LF, ESCAPED.
  rewrite (contains_skip _ _ _ _ (plain_no_CR _ H)),
          (contains_skip _ _ _ _ (plain_no_LF _ H)),
          (contains_skip _ _ _ _ (plain_no_BACKSLASH _ H)).
  repeat split.
Qed.

Lemma terminated_skip x y : plain x → terminated (x ++ y) = terminated y.
Proof.
  intros H. unfold terminated.
  destruct (contains_terminator_skip x y H) as (-> & -> & ->). reflexivity.
Qed.

Lemma plain_take j d : plain d → plain (take j d).
Proof. apply Forall_take. Qed.

Lemma plain_not_terminated d : plain d → terminated d = false.
Proof.
  intros H. rewrite <- (app_nil_r d), (terminated_skip _ _ H). reflexivity.
Qed.

(** While no terminator appears and the cap is not passed, the loop only
    accumulates the bytes it reads. *)
Lemma header_loop_scan d : ∀ fuel hd s r,
  contents s = d ++ r →
  (length d ≤ fuel)%nat →
  (∀ j, (1 ≤ j ≤ length d)%nat →
        terminated (hd ++ take j d) = false ∧ (length (hd ++ take j d) ≤ 4096)%nat) →
  header_loop fuel hd s =
    header_loop (fuel - length d) (hd ++ d) (advance (length d) s).
Proof.
  induction d as [|x d IH]; intros fuel hd s r Hc Hfuel Hscan.
  - simpl. rewrite Nat.sub_0_r, app_nil_r. reflexivity.
  - destruct fuel as [|fuel]; [simpl in Hfuel; lia|].
    destruct (read_one x (d ++ r) s Hc) as (s1 & Hr & Hc1).
    destruct (Hscan 1%nat ltac:(simpl; lia)) as [Hterm Hlen].
    rewrite firstn_cons, firstn_O in Hterm, Hlen.
    unfold terminated in Hterm.
    apply orb_false_elim in Hterm as [Hterm H3].
    apply orb_false_elim in Hterm as [H1 H2].
    cbn [header_loop]. rewrite Hr, H1, H2, H3.
    apply Nat.ltb_ge in Hlen. rewrite Hlen.
    rewrite (IH fuel (hd ++ [x]) s1 r Hc1 ltac:(simpl in Hfuel; lia)).
    + cbn [advance length]. rewrite Hr. cbn [snd].
      rewrite <- app_assoc. reflexivity.
    + intros j Hj. specialize (Hscan (S j) ltac:(simpl; lia)).
      rewrite firstn_cons in Hscan. rewrite <- app_assoc. exact Hscan.
Qed.

Lemma advance_snoc n s : advance (S n) s = (read 1 (advance n s)).2.
Proof.
  revert s. induction n as [|n IH]; intros s; [reflexivity|].
  change (advance (S (S n)) s) with (advance (S n) (read 1 s).2).
  rewrite IH. reflexivity.
Qed.

(** The loop on a header that ends with its first terminator. *)
Lemma header_loop_finds h s r :
  contents s = h ++ r →
  (length h ≤ 4097)%nat →
  (∀ j, (j < length h)%nat → terminated (take j h) = false) →
  terminated h = true →
  _read_header_and_content s = on_terminator h (advance (length h) s).
Proof.
  intros Hc Hlen Hscan Hterm.
  destruct h as [|x d _] using rev_ind; [discriminate|].
  rewrite length_app in *. simpl in Hlen.
  unfold _read_header_and_content.
  rewrite <- app_assoc in Hc.
  rewrite (header_loop_scan d 4097 [] s _ Hc ltac:(lia)).
  - pose proof (advance_contents d _ s Hc) as Hc1.
    destruct (read_one x r _ Hc1) as (s1 & Hr & _).
    destruct (4097 - length d)%nat as [|fuel] eqn:Ef; [lia|].
    cbn [header_loop]. rewrite Hr. change ([] ++ d) with d.
    replace (length d + length [x])%nat with (S (length d)) by (simpl; lia).
    rewrite advance_snoc, Hr. cbn [snd].
    unfold on_terminator, terminated in *.
    destruct (contains CRLF_CRLF (d ++ [x])); [reflexivity|].
    destruct (contains LF_LF (d ++ [x])); [reflexivity|].
    destruct (contains ESCAPED (d ++ [x])); [reflexivity|discriminate].
  - intros j Hj. simpl app. split.
    + specialize (Hscan j ltac:(simpl; lia)).
      rewrite take_app_le in Hscan by lia. exact Hscan.
    + rewrite length_take. lia.
Qed.

(** The loop gives up on 4097 bytes without a terminator. *)
Lemma header_loop_cap d s r :
  contents s = d ++ r →
  length d = 4097%nat →
  (∀ j, (j ≤ 4097)%nat → terminated (take j d) = false) →
  _read_header_and_content s = (no_frame, advance 4097 s).
Proof.
  intros Hc Hlen Hscan.
  destruct d as [|x d _] using rev_ind; [discriminate|].
  rewrite length_app in Hlen. simpl in Hlen.
  unfold _read_header_and_content.
  rewrite <- app_assoc in Hc.
  rewrite (header_loop_scan d 4097 [] s _ Hc ltac:(lia)).
  - pose proof (advance_contents d _ s Hc) as Hc1.
    destruct (read_one x r _ Hc1) as (s1 & Hr & _).
    replace (4097 - length d)%nat with 1%nat by lia.
    cbn [header_loop]. rewrite Hr. change ([] ++ d) with d.
    replace (advance 4097 s) with (advance (S (length d)) s) by (f_equal; lia).
    rewrite advance_snoc, Hr. cbn [snd].
    specialize (Hscan 4097%nat ltac:(lia)).
    rewrite take_ge in Hscan by (rewrite length_app; simpl; lia).
    unfold terminated in Hscan.
    apply orb_false_elim in Hscan as [Hscan H3].
    apply orb_false_elim in Hscan as [H1 H2].
    rewrite H1, H2, H3.
    replace (4096 <? length (d ++ [x]))%nat with true; [reflexivity|].
    symmetry. apply Nat.ltb_lt. rewrite length_app. simpl. lia.
  - intros j Hj. simpl app. split.
    + specialize (Hscan j ltac:(lia)).
      rewrite take_app_le in Hscan by lia. exact Hscan.
    + rewrite length_take. lia.
Qed.

End HeaderScan.

(** ** Headers of the wire format *)

Section WireHeaders.

Implicit Types (s : stream) (d ds body rest : bytes).

Lemma digit_plain c : is_digit c = true → c ≠ CR ∧ c ≠ LF ∧ c ≠ BACKSLASH.
Proof. intros H. repeat split; intros ->; discriminate H. Qed.

Lemma digit_ascii c : is_digit c = true → in_range 0 127 c = true.
Proof.
  unfold is_digit, in_range. intros H.
  apply andb_prop in H as [_ H]. apply N.leb_le in H.
  apply andb_true_intro. split; apply N.leb_le; lia.
Qed.

Lemma digits_plain ds : forallb is_digit ds = true → plain ds.
Proof.
  intros H. apply Forall_forall. intros c Hc. apply digit_plain.
  rewrite forallb_forall in H. apply H. apply list_elem_of_In. exact Hc.
Qed.

Lemma digits_ascii ds : forallb is_digit ds = true → all_ascii ds = true.
Proof.
  intros H. apply forallb_forall. intros c Hc. apply digit_ascii.
  rewrite forallb_forall in H. apply H. exact Hc.
Qed.

Lemma field_name_plain : plain (b "Content-Length: ").
Proof. repeat constructor; discriminate. Qed.

Lemma field_plain ds : forallb is_digit ds = true → plain (b "Content-Length: " ++ ds).
Proof. intros H. apply Forall_app. split; [apply field_name_plain|apply digits_plain, H]. Qed.

(** A proper prefix of a terminator holds no terminator. *)
Lemma terminator_prefix t k :
  is_terminator t → (k < length t)%nat → terminated (take k t) = false.
Proof.
  intros [-> | [-> | ->]] Hk;
    do 8 (destruct k as [|k]; [first [reflexivity | simpl in Hk; lia]|]);
    simpl in Hk; lia.
Qed.

Lemma header_prefix_not_terminated ds t j :
  forallb is_digit ds = true → is_terminator t →
  (j < length (header_of ds t))%nat →
  terminated (take j (header_of ds t)) = false.
Proof.
  intros Hds Ht Hj. unfold header_of in *. rewrite app_assoc in *.
  rewrite firstn_app, terminated_skip by (apply plain_take, field_plain, Hds).
  apply terminator_prefix; [exact Ht|]. rewrite length_app in Hj.
  assert (0 < length t)%nat by (destruct Ht as [-> | [-> | ->]]; simpl; lia).
  lia.
Qed.

Lemma take_while_digits ds t :
  forallb is_digit ds = true → is_terminator t →
  take_while is_digit (ds ++ t) = ds.
Proof.
  intros Hds Ht. induction ds as [|c ds IH].
  - destruct Ht as [-> | [-> | ->]]; reflexivity.
  - simpl in *. apply andb_prop in Hds as [Hc Hds]. rewrite Hc, (IH Hds). reflexivity.
Qed.

Lemma search_content_length_here d ds :
  starts_with (b "Content-Length: ") d = true →
  take_while is_digit (drop 16 d) = ds → ds ≠ [] →
  search_content_length d = Some ds.
Proof.
  intros Hp Hd Hne. destruct d as [|c d]; [discriminate|].
  cbn [search_content_length]. rewrite Hp, Hd. destruct ds; [congruence|reflexivity].
Qed.

Lemma search_content_length_header ds t :
  ds ≠ [] → forallb is_digit ds = true → is_terminator t →
  search_content_length (header_of ds t) = Some ds.
Proof.
  intros Hne Hds Ht. apply search_content_length_here; [reflexivity| |exact Hne].
  exact (take_while_digits _ _ Hds Ht).
Qed.

Lemma utf8_valid_ascii d : all_ascii d = true → utf8_valid d = true.
Proof.
  induction d as [|c d IH]; [reflexivity|].
  simpl. intros H. apply andb_prop in H as [Hc Hd]. rewrite Hc. exact (IH Hd).
Qed.

Lemma header_ascii ds t :
  forallb is_digit ds = true → is_terminator t → all_ascii (header_of ds t) = true.
Proof.
  intros Hds Ht. unfold header_of, all_ascii. rewrite !forallb_app.
  change (forallb (in_range 0 127) ds) with (all_ascii ds).
  rewrite (digits_ascii _ Hds). destruct Ht as [-> | [-> | ->]]; reflexivity.
Qed.

Lemma decode_ascii d : all_ascii d = true → decode d = Some (string_of_list_ascii d).
Proof. intros H. unfold decode. rewrite (utf8_valid_ascii _ H). reflexivity. Qed.

(** Which branch the loop takes on each terminator. *)
Lemma on_terminator_header ds t s :
  forallb is_digit ds = true → is_terminator t →
  terminated (header_of ds t) = true ∧
  on_terminator (header_of ds t) s =
    if bool_decide (t = ESCAPED) then read_content_escaped (header_of ds t) s
    else read_content (header_of ds t) s.
Proof.
  intros Hds Ht. pose proof (field_plain _ Hds) as Hp.
  unfold on_terminator, header_of. rewrite !app_assoc.
  rewrite (terminated_skip _ _ Hp).
  destruct (contains_terminator_skip _ t Hp) as (-> & -> & _).
  destruct Ht as [-> | [-> | ->]]; split; reflexivity.
Qed.

Lemma find_escaped ds :
  forallb is_digit ds = true →
  Z.to_nat (find ESCAPED (header_of ds ESCAPED) + 8) = length (header_of ds ESCAPED).
Proof.
  intros Hds. pose proof (field_plain _ Hds) as Hp.
  unfold find, header_of. rewrite app_assoc. unfold ESCAPED at 1.
  rewrite (find_from_skip _ _ _ _ _ (plain_no_BACKSLASH _ Hp)).
  change (find_from ?i (BACKSLASH :: ?p) ESCAPED) with i.
  rewrite !length_app. change (length ESCAPED) with 8%nat.
  change (length (b "Content-Length: ")) with 16%nat. lia.
Qed.

End WireHeaders.

(** ** The frame that the base server reads *)

Section FramerClaims.

Implicit Types (s : stream) (d ds body rest : bytes).


End FramerClaims.

Section FramerExamples.


(** The reading loop of the embedding server asks again after a short
    read, so it returns the whole body however the input is cut. *)
Lemma read_nonempty n s :
  contents s ≠ [] → n ≠ 0%nat → (read n s).1 ≠ [].
Proof.
  induction s as [|c s IH]; [intros H; destruct (H eq_refl)|].
  destruct c as [|x c]; [exact IH|].
  intros _ Hn. cbn [read]. destruct (n =? 0)%nat eqn:En.
  - apply Nat.eqb_eq in En. contradiction.
  - cbn [fst]. destruct n; [contradiction|]. discriminate.
Qed.

Lemma read_content_loop_total fuel : ∀ content remaining s,
  (remaining < fuel)%nat →
  is_Some (EmbeddingServer.read_content_loop fuel content remaining s).
Proof.
  induction fuel as [|fuel IH]; intros content remaining s Hfuel; [lia|].
  cbn [EmbeddingServer.read_content_loop].
  destruct (0 <? remaining)%nat eqn:Hpos; [|eauto].
  apply Nat.ltb_lt in Hpos.
  destruct (read (min 1024 remaining) s) as [[|y chunk] s1]; [eauto|].
  apply IH. simpl. lia.
Qed.

Lemma embedding_read_content_loop fuel : ∀ content d rest s,
  contents s = d ++ rest →
  (length d < fuel)%nat →
  ∃ s', EmbeddingServer.read_content_loop fuel content (length d) s
          = Some (Some (content ++ d), s')
        ∧ contents s' = rest.
Proof.
  induction fuel as [|fuel IH]; intros content d rest s Hc Hfuel; [lia|].
  cbn [EmbeddingServer.read_content_loop].
  destruct d as [|x d].
  { simpl. rewrite app_nil_r. eexists. split; [reflexivity|exact Hc]. }
  replace (0 <? length (x :: d))%nat with true by reflexivity.
  set (n := min 1024 (length (x :: d))).
  pose proof (read_contents n s) as Hrc.
  pose proof (read_length n s) as Hlen.
  pose proof (read_nonempty n s) as Hne.
  destruct (read n s) as [chunk s1]. cbn [fst snd] in *.
  rewrite Hc in Hrc, Hne.
  specialize (Hne ltac:(discriminate) ltac:(subst n; simpl; lia)).
  destruct chunk as [|y chunk]; [congruence|].
  assert (Hsplit : x :: d = (y :: chunk) ++ drop (length (y :: chunk)) (x :: d)
                   ∧ contents s1 = drop (length (y :: chunk)) (x :: d) ++ rest).
  { assert (Hle : (length (y :: chunk) ≤ length (x :: d))%nat) by (subst n; lia).
    pose proof (f_equal (take (length (y :: chunk))) Hrc) as Ht.
    pose proof (f_equal (drop (length (y :: chunk))) Hrc) as Hd.
    rewrite take_app_le, take_app_length in Ht by exact Hle.
    rewrite drop_app_le, drop_app_length in Hd by exact Hle.
    split; [|symmetry; exact Hd].
    rewrite <- Ht at 1. symmetry. apply take_drop. }
  destruct Hsplit as [Hd Hc1].
  set (d' := drop (length (y :: chunk)) (x :: d)) in *.
  replace (length (x :: d) - length (y :: chunk))%nat with (length d').
  2:{ subst d'. rewrite length_drop. reflexivity. }
  destruct (IH (content ++ y :: chunk) d' rest s1 Hc1) as (s' & Hs' & Hrest).
  { rewrite Hd, length_app in Hfuel. simpl in Hfuel. lia. }
  exists s'. split; [|exact Hrest].
  rewrite Hs'. rewrite <- app_assoc, <- Hd. reflexivity.
Qed.

Lemma embedding_read_content_reassembles body rest s :
  contents s = body ++ rest →
  ∃ s', EmbeddingServer.read_content (length body) s = (Some body, s')
        ∧ contents s' = rest.
Proof.
  intros Hc. unfold EmbeddingServer.read_content.
  destruct (embedding_read_content_loop (S (length body)) [] body rest s Hc ltac:(lia))
    as (s' & -> & Hrest).
  exists s'. split; [reflexivity|exact Hrest].
Qed.

(** A body that arrives in two pieces behind a line-break terminator is
    always rejected: the single read returns the first piece only. *)
Lemma advance_chunk c s : c ≠ [] → advance (length c) (c :: s) = s.
Proof.
  induction c as [|x c IH]; [congruence|]. intros _.
  destruct c as [|y c]; [reflexivity|].
  change (advance (length (x :: y :: c)) ((x :: y :: c) :: s))
    with (advance (length (y :: c)) ((y :: c) :: s)).
  apply IH. discriminate.
Qed.

Lemma read_first_piece b1 b2 s :
  b1 ≠ [] → b2 ≠ [] →
  read (length (b1 ++ b2)) (b1 :: b2 :: s) = (b1, b2 :: s).
Proof.
  intros H1 H2. destruct b1 as [|x b1]; [congruence|].
  cbn [read]. rewrite length_app.
  destruct b2 as [|y b2]; [congruence|].
  replace (length (x :: b1) + length (y :: b2) =? 0)%nat with false
    by (symmetry; apply Nat.eqb_neq; simpl; lia).
  replace (length (x :: b1) + length (y :: b2) <? length (x :: b1))%nat with false
    by (symmetry; apply Nat.ltb_ge; lia).
  rewrite take_ge by lia. reflexivity.
Qed.

Lemma split_body_is_rejected t ds b1 b2 s :
  t = CRLF_CRLF ∨ t = LF_LF →
  ds ≠ [] → forallb is_digit ds = true →
  int_of_digits ds = length (b1 ++ b2) →
  (length (header_of ds t) ≤ 4097)%nat →
  b1 ≠ [] → b2 ≠ [] →
  _read_header_and_content (header_of ds t :: b1 :: b2 :: s) = (no_frame, b2 :: s).
Proof.
  intros Ht Hne Hds Hint Hlen H1 H2.
  assert (Ht' : is_terminator t) by (destruct Ht; [left|right; left]; assumption).
  destruct (on_terminator_header ds t
              (advance (length (header_of ds t)) (header_of ds t :: b1 :: b2 :: s))
              Hds Ht') as [Hterm Hon].
  rewrite (header_loop_finds (header_of ds t) _ (concat (b1 :: b2 :: s)));
    [|reflexivity|exact Hlen
     |intros j Hj; apply header_prefix_not_terminated; assumption|exact Hterm].
  rewrite Hon.
  replace (bool_decide (t = ESCAPED)) with false
    by (destruct Ht as [-> | ->]; reflexivity).
  rewrite advance_chunk by (unfold header_of; discriminate).
  unfold read_content.
  rewrite (search_content_length_header _ _ Hne Hds Ht'), Hint.
  rewrite (read_first_piece _ _ _ H1 H2).
  replace (length b1 =? length (b1 ++ b2))%nat with false; [reflexivity|].
  symmetry. apply Nat.eqb_neq. rewrite length_app.
  destruct b2; [congruence|simpl; lia].
Qed.

(** C4 (the code departs from the claim): the base server asks for the body
    with a single read and does not ask again.  When the body of a
    well-formed frame arrives in two pieces, the framer reports a failure
    after the first piece, and the loop stops with the second piece unread;
    behind the escaped terminator the first piece is returned as if it were
    the body.  The same bytes in one piece are framed correctly, and the
    reading loop of the embedding server reassembles the two pieces. *)
Theorem C4_split_body_not_reassembled :
  contents Samples.split_ping = Samples.ping_message ∧
  _read_header_and_content [Samples.ping_message] =
    ((Some (string_of_list_ascii (Peer.header CRLF_CRLF (length Samples.ping_body))),
      Some (string_of_list_ascii Samples.ping_body)), []) ∧
  _read_header_and_content Samples.split_ping =
    (no_frame, [drop 10 Samples.ping_body]) ∧
  _run_message_loop Samples.loads EchoServer.server Samples.split_ping =
    (set_shutdown_requested true EchoServer.server, [drop 10 Samples.ping_body], []) ∧
  _read_header_and_content Samples.split_ping_escaped =
    ((Some (string_of_list_ascii (Peer.header ESCAPED (length Samples.ping_body))),
      Some (string_of_list_ascii (take 10 Samples.ping_body))),
     [drop 10 Samples.ping_body]) ∧
  EmbeddingServer.read_content (length Samples.ping_body)
    [take 10 Samples.ping_body; drop 10 Samples.ping_body] =
    (Some Samples.ping_body, []).
Proof.
  assert (Hf : _read_header_and_content Samples.split_ping =
               (no_frame, [drop 10 Samples.ping_body])) by (vm_compute; reflexivity).
  split; [vm_compute; reflexivity|].
  split; [vm_compute; reflexivity|].
  split; [exact Hf|].
  split; [apply framing_failure_stops_loop; [reflexivity|exact Hf]|].
  split; vm_compute; reflexivity.
Qed.

End FramerExamples.

(** ** The lifecycle *)

Section Lifecycle.

Variable json_loads : string → option json.

Implicit Types (self : McpBaseServer) (s : stream) (request : list (string * json)).


(** What an iteration does with a frame that decodes to a request which the
    dispatcher answers or ignores. *)
Lemma loop_body_dispatch self s header content s' request self' response :
  _read_header_and_content s = ((Some header, Some content), s') →
  json_loads content = Some (JDict request) →
  _handle_request self request = (self', Return response) →
  (∀ r, response = Some r → truthy r = true) →
  loop_body json_loads self s = (self', s', option_list response).
Proof.
  intros Hf Hl Hh Ht. unfold loop_body. rewrite Hf, Hl, Hh.
  destruct response as [r|]; [|reflexivity]. rewrite (Ht r eq_refl). reflexivity.
Qed.


End Lifecycle.

Section LifecycleExamples.



(** The conversation of the specification: three responses, in order; the
    loop has ended before it reads the [exit] notification. *)
Example handshake_run :
  (_run_message_loop Samples.loads EchoServer.server Samples.handshake).2 =
    [result_response (JInt 1) (_create_capabilities EchoServer.server);
     result_response (JInt 2) (JDict [("message", JStr "Echo: hi")]);
     result_response (JInt 3) JNull] ∧
  (_run_message_loop Samples.loads EchoServer.server Samples.handshake).1.2 =
    [Peer.message (JDict Samples.exit_notification)].
Proof. split; vm_compute; reflexivity. Qed.

(** A method that is a number makes the dispatcher raise; the loop
    recovers the id from the text of the message and reports an internal
    error. *)
Example numeric_method_run :
  _handle_request EchoServer.server Samples.numeric_method =
    (EchoServer.server, Raise (no_attribute (JInt 7) "startswith")) ∧
  (_run_message_loop Samples.loads EchoServer.server
     [Peer.message (JDict Samples.numeric_method)]).2 =
    [error_response (JInt 9) (-32603)
       "Internal error: 'int' object has no attribute 'startswith'"].
Proof. split; [reflexivity | vm_compute; reflexivity]. Qed.

(** C2 (the code departs from the claim): the framer reports every failure
    as the pair of two [None], which the loop takes for the end of the
    input.  After a header without [Content-Length], after 4097 header bytes
    without a terminator and after a body that is not UTF-8, the loop stops
    and the well-formed request that follows is never read. *)
Theorem C2_framing_failure_ends_the_loop :
  _run_message_loop Samples.loads EchoServer.server Samples.missing_length =
    (set_shutdown_requested true EchoServer.server, [Samples.ping_message], []) ∧
  _run_message_loop Samples.loads EchoServer.server Samples.oversized_header =
    (set_shutdown_requested true EchoServer.server, [Samples.ping_message], []) ∧
  _run_message_loop Samples.loads EchoServer.server Samples.invalid_utf8 =
    (set_shutdown_requested true EchoServer.server, [Samples.ping_message], []) ∧
  (_run_message_loop Samples.loads EchoServer.server [Samples.ping_message]).2 =
    [error_response (JInt 8) (-32601) "Method not found: ping"].
Proof.
  split; [apply framing_failure_stops_loop; [reflexivity|vm_compute; reflexivity]|].
  split.
  { apply framing_failure_stops_loop; [reflexivity|].
    rewrite (header_loop_cap (replicate 4097 "A"%char) Samples.oversized_header
               Samples.ping_message).
    - vm_compute. reflexivity.
    - unfold Samples.oversized_header, contents. cbn [concat]. apply app_nil_r.
    - apply length_replicate.
    - intros j _. apply plain_not_terminated, plain_take, Forall_replicate.
      repeat split; discriminate. }
  split; [apply framing_failure_stops_loop; [reflexivity|vm_compute; reflexivity]|].
  vm_compute. reflexivity.
Qed.

End LifecycleExamples.

(** ** Requests and responses *)

Section Responses.

Variable json_loads : string → option json.

Implicit Types (self : McpBaseServer) (s : stream) (request : list (string * json)).




End Responses.

Section ResponseExamples.




End ResponseExamples.

(** ** Advertised tools and registered handlers *)

Section Registry.

Implicit Types (self : McpBaseServer) (request : list (string * json)).

Lemma handle_request_initialize self request :
  get request "method" = JStr "initialize" →
  is_none (get request "id") = false →
  _handle_request self request =
    (set_initialized true self,
     Return (Some (result_response (get request "id") (_create_capabilities self)))).
Proof. intros Hm Hid. unfold _handle_request. rewrite Hm, Hid. reflexivity. Qed.

(** C10: the tools that an [initialize] response advertises are the list
    given at construction, whatever was registered since; [register_tool]
    changes the handler map and nothing else.  So a server built with a
    descriptor and no registration advertises a tool that it reports as not
    found, and a handler registered on a server built without descriptors
    is invoked although nothing is advertised. *)
Theorem C10_advertised_tools_fixed_at_construction
    (n v : string) (ts : list json) (regs : list (string * handler)) request :
  get request "method" = JStr "initialize" →
  is_none (get request "id") = false →
  (∃ self' response,
     _handle_request (register_all (__init__ n v ts) regs) request =
       (self', Return (Some response)) ∧
     advertised_tools response = Some (JList ts)) ∧
  (∀ self t h,
     tools (register_tool self t h) = tools self ∧
     name (register_tool self t h) = name self ∧
     version (register_tool self t h) = version self ∧
     _shutdown_requested (register_tool self t h) = _shutdown_requested self ∧
     _initialized (register_tool self t h) = _initialized self ∧
     tool_handlers (register_tool self t h) = <[t := h]> (tool_handlers self)) ∧
  (∀ t d, tool_handlers (__init__ n v (JDict (("name", JStr t) :: d) :: ts)) !! t = None) ∧
  (∀ t h, tools (register_tool (__init__ n v []) t h) = [] ∧
          tool_handlers (register_tool (__init__ n v []) t h) !! t = Some h).
Proof.
  intros Hm Hid. split; [|split; [|split]].
  - eexists _, _. split; [apply handle_request_initialize; assumption|].
    unfold advertised_tools, _create_capabilities. simpl.
    rewrite register_all_tools. reflexivity.
  - intros self t h. repeat split.
  - intros t d. apply lookup_empty.
  - intros t h. split; [reflexivity|]. apply lookup_insert_eq.
Qed.

Lemma C10_witness :
  (∃ self' response,
     _handle_request
       (register_all (__init__ "echo-server" "1.0.0" EchoServer.tools)
          [("echo", EchoServer.handle_echo); ("hidden", EchoServer.handle_fail)])
       Samples.initialize_request = (self', Return (Some response)) ∧
     advertised_tools response = Some (JList EchoServer.tools)) ∧
  (∀ self t h,
     tools (register_tool self t h) = tools self ∧
     name (register_tool self t h) = name self ∧
     version (register_tool self t h) = version self ∧
     _shutdown_requested (register_tool self t h) = _shutdown_requested self ∧
     _initialized (register_tool self t h) = _initialized self ∧
     tool_handlers (register_tool self t h) = <[t := h]> (tool_handlers self)) ∧
  (∀ t d, tool_handlers (__init__ "echo-server" "1.0.0"
                           (JDict (("name", JStr t) :: d) :: EchoServer.tools)) !! t = None) ∧
  (∀ t h, tools (register_tool (__init__ "echo-server" "1.0.0" []) t h) = [] ∧
          tool_handlers (register_tool (__init__ "echo-server" "1.0.0" []) t h) !! t
            = Some h).
Proof.
  apply (C10_advertised_tools_fixed_at_construction "echo-server" "1.0.0"
           EchoServer.tools
           [("echo", EchoServer.handle_echo); ("hidden", EchoServer.handle_fail)]
           Samples.initialize_request);
    reflexivity.
Defined.

(** The two cases at work on the dispatcher. *)
Example advertised_without_handler :
  advertised_tools
    (result_response (JInt 1) (_create_capabilities
       (__init__ "s" "1" [JDict [("name", JStr "nosuch")]]))) =
    Some (JList [JDict [("name", JStr "nosuch")]]) ∧
  _handle_request (__init__ "s" "1" [JDict [("name", JStr "nosuch")]])
    Samples.execute_unknown =
    (__init__ "s" "1" [JDict [("name", JStr "nosuch")]],
     Return (Some (error_response (JInt 6) (-32601) "Tool not found: nosuch"))).
Proof. split; reflexivity. Qed.

Example handler_without_advertisement :
  tools (register_tool Samples.memstore "echo" EchoServer.handle_echo) = [] ∧
  (_handle_request (register_tool Samples.memstore "echo" EchoServer.handle_echo)
     Samples.execute_echo).2 =
    Return (Some (result_response (JInt 2) (JDict [("message", JStr "Echo: hi")]))).
Proof. split; reflexivity. Qed.

End Registry.

(** * Further properties *)

(** ** Decimal text *)

Section DecimalText.

Lemma digit_value m :
  (m < 10)%N →
  is_digit (pretty_N_char m) = true ∧
  (N.to_nat (N_of_ascii (pretty_N_char m)) - 48)%nat = N.to_nat m.
Proof.
  intros Hm.
  assert (m = 0 ∨ m = 1 ∨ m = 2 ∨ m = 3 ∨ m = 4 ∨ m = 5 ∨ m = 6 ∨ m = 7
          ∨ m = 8 ∨ m = 9)%N as H by lia.
  repeat (destruct H as [-> | H]; [split; reflexivity|]).
  subst m. split; reflexivity.
Qed.

Lemma int_of_digits_snoc ds c :
  int_of_digits (ds ++ [c]) =
  (10 * int_of_digits ds + (N.to_nat (N_of_ascii c) - 48))%nat.
Proof. unfold int_of_digits. rewrite fold_left_app. reflexivity. Qed.

(** The digits that [pretty_N_go] puts in front of its accumulator. *)
Lemma pretty_N_go_digits (x : N) : ∀ s : string,
  ∃ ds : bytes,
    b (pretty_N_go x s) = ds ++ b s ∧
    forallb is_digit ds = true ∧
    int_of_digits ds = N.to_nat x ∧
    ((0 < x)%N → ds ≠ []).
Proof.
  induction (N.lt_wf_0 x) as [x _ IH]. intros s.
  destruct (decide (x = 0%N)) as [-> | Hx].
  { exists []. rewrite pretty_N_go_0. repeat split; try reflexivity. lia. }
  rewrite pretty_N_go_step by lia.
  destruct (IH (x `div` 10)%N ltac:(apply N.div_lt; lia)
              (String (pretty_N_char (x `mod` 10)) s))
    as (ds & Heq & Hdig & Hint & _).
  destruct (digit_value (x `mod` 10)%N ltac:(apply N.mod_lt; lia)) as [Hd Hv].
  exists (ds ++ [pretty_N_char (x `mod` 10)]).
  split; [rewrite Heq, <- app_assoc; reflexivity|].
  split; [rewrite forallb_app, Hdig; simpl; rewrite Hd; reflexivity|].
  split; [|intros _ H; destruct ds; discriminate H].
  rewrite int_of_digits_snoc, Hint, Hv.
  pose proof (N.div_mod x 10 ltac:(lia)). lia.
Qed.

(** [int(str(n)) == n], and [str(n)] is a non-empty run of digits. *)
Lemma pretty_nat_digits (n : nat) :
  b (pretty n) ≠ [] ∧
  forallb is_digit (b (pretty n)) = true ∧
  int_of_digits (b (pretty n)) = n.
Proof.
  unfold pretty, pretty_nat, pretty, pretty_N.
  destruct (decide (N.of_nat n = 0%N)) as [H0 | Hpos].
  { repeat split; try discriminate. unfold int_of_digits. simpl. lia. }
  destruct (pretty_N_go_digits (N.of_nat n) "") as (ds & Heq & Hdig & Hint & Hne).
  change (b "") with (@nil ascii) in Heq. rewrite app_nil_r in Heq.
  unfold b in *. rewrite Heq. repeat split; [apply Hne; lia|exact Hdig|].
  rewrite Hint. lia.
Qed.

End DecimalText.

(** ** Frames on the wire *)

Section WireFrames.

Implicit Types (s : stream) (d ds body rest : bytes).

(** A frame of the wire format is read back exactly when the read of its
    body is not cut short. *)
Lemma wire_frame_read_back (terminator ds body rest : bytes) (s : stream) :
  is_terminator terminator →
  ds ≠ [] →
  forallb is_digit ds = true →
  int_of_digits ds = length body →
  (length (header_of ds terminator) ≤ 4097)%nat →
  utf8_valid body = true →
  contents s = header_of ds terminator ++ body ++ rest →
  (read (length body) (advance (length (header_of ds terminator)) s)).1 = body →
  ∃ s', _read_header_and_content s =
          ((Some (string_of_list_ascii (header_of ds terminator)),
            Some (string_of_list_ascii body)), s')
        ∧ contents s' = rest.
Proof.
  intros Ht Hne Hds Hint Hlen Hutf Hc Hread.
  destruct (on_terminator_header ds terminator
              (advance (length (header_of ds terminator)) s) Hds Ht) as [Hterm Hon].
  rewrite (header_loop_finds _ s (body ++ rest) Hc Hlen); [|intros j Hj; apply
    header_prefix_not_terminated; assumption|exact Hterm].
  rewrite Hon. clear Hon.
  pose proof (advance_contents _ _ s Hc) as Hc1.
  set (s1 := advance (length (header_of ds terminator)) s) in *.
  pose proof (read_contents (length body) s1) as Hrc. rewrite Hread, Hc1 in Hrc.
  apply app_inv_head in Hrc.
  pose proof (decode_ascii _ (header_ascii _ _ Hds Ht)) as Hdh.
  assert (Hdb : decode body = Some (string_of_list_ascii body))
    by (unfold decode; rewrite Hutf; reflexivity).
  destruct (bool_decide (terminator = ESCAPED)) eqn:Hesc.
  - apply bool_decide_eq_true in Hesc. subst terminator.
    unfold read_content_escaped.
    rewrite (find_escaped _ Hds).
    rewrite (search_content_length_header _ _ Hne Hds Ht), Hint.
    rewrite drop_all, take_ge by lia. simpl length. rewrite Nat.sub_0_r.
    destruct (0 <? length body)%nat eqn:Hpos.
    + destruct (read (length body) s1) as [remaining s2] eqn:Hr.
      cbn [fst snd] in *. subst remaining. simpl app.
      unfold decode_both. rewrite Hdh, Hdb. eexists. split; [reflexivity|].
      symmetry. exact Hrc.
    + apply Nat.ltb_ge in Hpos. destruct body; [|simpl in Hpos; lia].
      simpl app. unfold decode_both. rewrite Hdh. simpl.
      eexists. split; [reflexivity|]. exact Hc1.
  - unfold read_content.
    rewrite (search_content_length_header _ _ Hne Hds Ht), Hint.
    destruct (read (length body) s1) as [content_data s2] eqn:Hr.
    cbn [fst snd] in *. subst content_data. rewrite Nat.eqb_refl. simpl negb.
    cbv iota. unfold decode_both. rewrite Hdh, Hdb.
    eexists. split; [reflexivity|]. symmetry. exact Hrc.
Qed.

Lemma advance_within h c s : c ≠ [] → advance (length h) ((h ++ c) :: s) = c :: s.
Proof.
  intros Hc. induction h as [|x h IH]; [reflexivity|].
  change (advance (length (x :: h)) (((x :: h) ++ c) :: s))
    with (advance (length h) (read 1 ((x :: h ++ c) :: s)).2).
  cbn [read]. destruct (h ++ c) as [|y r] eqn:E.
  { destruct h; [simpl in E; congruence|discriminate E]. }
  exact IH.
Qed.

Lemma read_whole_chunk c s : c ≠ [] → read (length c) (c :: s) = (c, s).
Proof.
  destruct c as [|x c]; [congruence|]. intros _. cbn [read].
  replace (length (x :: c) =? 0)%nat with false by reflexivity.
  rewrite Nat.ltb_irrefl, take_ge by lia. reflexivity.
Qed.

Lemma read_zero s : (read 0 s).1 = [].
Proof.
  induction s as [|c s IH]; [reflexivity|]. destruct c; [exact IH|reflexivity].
Qed.

Lemma b_app (s1 s2 : string) : b (s1 +:+ s2) = b s1 ++ b s2.
Proof.
  unfold b. induction s1 as [|c s1 IH]; [reflexivity|].
  simpl. rewrite IH. reflexivity.
Qed.

Lemma frame_header_of n : Output.frame_header n = header_of (b (pretty n)) CRLF_CRLF.
Proof. unfold Output.frame_header, header_of. rewrite b_app, <- app_assoc. reflexivity. Qed.

Lemma read_body_in_one_write h c s :
  h ≠ [] → (read (length c) (advance (length h) ((h ++ c) :: s))).1 = c.
Proof.
  intros Hh. destruct c as [|x c].
  - rewrite app_nil_r, advance_chunk by exact Hh. apply read_zero.
  - rewrite advance_within, read_whole_chunk by discriminate. reflexivity.
Qed.

Lemma read_body_in_two_writes h c s :
  h ≠ [] → (read (length c) (advance (length h) (h :: c :: s))).1 = c.
Proof.
  intros Hh. rewrite advance_chunk by exact Hh. destruct c as [|x c].
  - apply read_zero.
  - rewrite read_whole_chunk by discriminate. reflexivity.
Qed.

Lemma frame_header_nonempty n : Output.frame_header n ≠ [].
Proof. unfold Output.frame_header. rewrite b_app. discriminate. Qed.

End WireFrames.

(** ** The writers *)

Section WriterProperties.

Variable json_dumps : json → string.

(** The frame of a response: its header and its serialised text. *)
Let frame_body (response : json) : bytes := b (json_dumps response).
Let frame_head (response : json) : bytes :=
  Output.frame_header (length (b (json_dumps response))).

Lemma frame_read_back_from (response : json) (s0 s : stream) :
  utf8_valid (frame_body response) = true →
  (length (frame_head response) ≤ 4097)%nat →
  contents s0 = frame_head response ++ frame_body response ++ contents s →
  (read (length (frame_body response))
     (advance (length (frame_head response)) s0)).1 = frame_body response →
  ∃ s', _read_header_and_content s0 =
          ((Some (string_of_list_ascii (frame_head response)),
            Some (json_dumps response)), s')
        ∧ contents s' = contents s.
Proof.
  unfold frame_head, frame_body. rewrite !frame_header_of.
  intros Hutf Hlen Hc Hread.
  destruct (pretty_nat_digits (length (b (json_dumps response)))) as (Hne & Hds & Hint).
  destruct (wire_frame_read_back CRLF_CRLF _ _ _ s0 (or_introl eq_refl) Hne Hds Hint
              Hlen Hutf Hc Hread) as (s' & Hs' & Hrest).
  exists s'. split; [|exact Hrest]. rewrite Hs'. unfold b.
  rewrite string_of_list_ascii_of_string. reflexivity.
Qed.

(** What either writer puts on a device that accepts every write is read
    back by the framer of the base server as the serialised response, and
    the input that follows the frame is left untouched. *)
Theorem written_response_is_read_back (response : json) (s : stream) :
  utf8_valid (b (json_dumps response)) = true →
  (length (Output.frame_header (length (b (json_dumps response)))) ≤ 4097)%nat →
  (∃ s', _read_header_and_content
           (Output._send_response json_dumps Output.reliable [] response ++ s) =
           ((Some (string_of_list_ascii
                     (Output.frame_header (length (b (json_dumps response))))),
             Some (json_dumps response)), s')
         ∧ contents s' = contents s) ∧
  (∃ s', _read_header_and_content
           (Output.send_response json_dumps Output.reliable [] response ++ s) =
           ((Some (string_of_list_ascii
                     (Output.frame_header (length (b (json_dumps response))))),
             Some (json_dumps response)), s')
         ∧ contents s' = contents s).
Proof.
  intros Hutf Hlen. split.
  - apply frame_read_back_from; [exact Hutf|exact Hlen| |].
    + unfold Output._send_response, Output.reliable, contents. simpl.
      rewrite <- app_assoc. reflexivity.
    + apply read_body_in_one_write, frame_header_nonempty.
  - apply frame_read_back_from; [exact Hutf|exact Hlen| |].
    + unfold Output.send_response, Output.reliable, contents. reflexivity.
    + apply read_body_in_two_writes, frame_header_nonempty.
Qed.

Variable device : list bytes → bytes → Output.write_result.

(** [_send_response] never raises and never disturbs what was written
    before: it appends nothing, the header alone, or the whole frame in one
    or two writes.  When the device accepts the first write, the frame goes
    out in that single write; after an [IOError] the header and the body
    are written separately, and a failure of the second of these writes
    leaves the header alone in the output. *)
Theorem send_response_writes_a_prefix_of_the_frame (out : list bytes) (response : json) :
  let header := Output.frame_header (length (b (json_dumps response))) in
  let body := b (json_dumps response) in
  (∃ written,
     Output._send_response json_dumps device out response = out ++ written ∧
     (written = [] ∨ written = [header] ∨ written = [header ++ body]
      ∨ written = [header; body])) ∧
  (device out (header ++ body) = Output.Written →
   Output._send_response json_dumps device out response = out ++ [header ++ body]) ∧
  (device out (header ++ body) = Output.RaisesIOError →
   device out header = Output.Written →
   Output._send_response json_dumps device out response =
     out ++ (if device (out ++ [header]) body is Output.Written
             then [header; body] else [header])) ∧
  (device out (header ++ body) = Output.RaisesOther →
   Output._send_response json_dumps device out response = out).
Proof.
  intros header body. unfold Output._send_response. cbv zeta.
  change (Output.frame_header (length (b (json_dumps response)))) with header.
  change (b (json_dumps response)) with body.
  destruct (device out (header ++ body)) eqn:E1.
  - split; [exists [header ++ body]; auto|]. repeat split; discriminate.
  - destruct (device out header) eqn:E2.
    + destruct (device (out ++ [header]) body) eqn:E3.
      * split; [exists [header; body]; auto 6|]. repeat split; discriminate.
      * split; [exists [header]; auto|]. repeat split; discriminate.
      * split; [exists [header]; auto|]. repeat split; discriminate.
    + split; [exists []; rewrite app_nil_r; auto|]. repeat split; discriminate.
    + split; [exists []; rewrite app_nil_r; auto|]. repeat split; discriminate.
  - split; [exists []; rewrite app_nil_r; auto|]. repeat split; discriminate.
Qed.

End WriterProperties.

Lemma written_response_witness :
  (∃ s', _read_header_and_content
           (Output._send_response Peer.dumps Output.reliable [] Inputs.shutdown_response
              ++ [Samples.ping_message]) =
           ((Some (string_of_list_ascii
                     (Output.frame_header
                        (length (b (Peer.dumps Inputs.shutdown_response))))),
             Some (Peer.dumps Inputs.shutdown_response)), s')
         ∧ contents s' = contents [Samples.ping_message]) ∧
  (∃ s', _read_header_and_content
           (Output.send_response Peer.dumps Output.reliable [] Inputs.shutdown_response
              ++ [Samples.ping_message]) =
           ((Some (string_of_list_ascii
                     (Output.frame_header
                        (length (b (Peer.dumps Inputs.shutdown_response))))),
             Some (Peer.dumps Inputs.shutdown_response)), s')
         ∧ contents s' = contents [Samples.ping_message]).
Proof.
  apply (written_response_is_read_back Peer.dumps Inputs.shutdown_response
           [Samples.ping_message]);
    [vm_compute; reflexivity | vm_compute; lia].
Defined.

(** ** More on the dispatcher of the base server *)

Section DispatcherProperties.

Implicit Types (self : McpBaseServer) (request : list (string * json)).

Lemma handle_request_other self request m :
  get request "method" = JStr m →
  ¬ named_method m →
  _handle_request self request =
    match is_lsp_notification (JStr m) with
    | Raise e => (self, Raise e)
    | Return true => (self, Return None)
    | Return false =>
        if negb (is_none (get request "id")) then
          (self, Return (Some (error_response (get request "id") (-32601)
                                 ("Method not found: " +:+ m))))
        else (self, Return None)
    end.
Proof.
  intros Hm Hn. unfold named_method in Hn. unfold _handle_request. rewrite Hm. cbn [str_eq].
  destruct (String.eqb_spec m "initialize"); [tauto|].
  destruct (String.eqb_spec m "shutdown"); [tauto|].
  destruct (String.eqb_spec m "exit"); [tauto|].
  destruct (String.eqb_spec m "tool/execute"); [tauto|].
  destruct (String.eqb_spec m "mcp/tool/execute"); [tauto|].
  reflexivity.
Qed.

(** A method that the dispatcher does not know and that does not start
    with the notification prefix is reported to a request as the error
    -32601 with the name of the method, and dropped when the message has no
    id; a message without any method is treated as the method [None].  The
    server state does not change. *)
Theorem unknown_method_is_reported self request :
  (∀ m, get request "method" = JStr m →
        ¬ named_method m → startswith m "$/" = false →
        _handle_request self request =
          (self, Return (if is_none (get request "id") then None
                         else Some (error_response (get request "id") (-32601)
                                      ("Method not found: " +:+ m))))) ∧
  (dict_lookup request "method" = None →
   _handle_request self request =
     (self, Return (if is_none (get request "id") then None
                    else Some (error_response (get request "id") (-32601)
                                 "Method not found: None")))).
Proof.
  split.
  - intros m Hm Hn Hp. rewrite (handle_request_other self request m Hm Hn).
    unfold is_lsp_notification. rewrite Hp.
    destruct (truthy (JStr m)), (is_none (get request "id")); reflexivity.
  - intros Hm.
    assert (Hnull : get request "method" = JNull) by (unfold get; rewrite Hm; reflexivity).
    unfold _handle_request. rewrite Hnull.
    destruct (is_none (get request "id")); reflexivity.
Qed.

(** When the handler of the named tool returns, its value is the result of
    the response.  The field [tool_name] is preferred to [name], the
    handler receives the field [arguments], or an empty mapping when there
    is none, and the server state does not change. *)
Theorem handler_result_is_returned
    self request (m t : string) (params : list (string * json)) (h : handler)
    (result : json) :
  get request "method" = JStr m →
  m = "tool/execute" ∨ m = "mcp/tool/execute" →
  is_none (get request "id") = false →
  dict_lookup request "params" = Some (JDict params) →
  get params "tool_name" = JStr t ∨
    (is_none (get params "tool_name") = true ∧ get params "name" = JStr t) →
  tool_handlers self !! t = Some h →
  h (get_default params "arguments" (JDict [])) = Returned result →
  _handle_request self request =
    (self, Return (Some (result_response (get request "id") result))).
Proof.
  intros Hm Hname Hid Hp Ht Hreg Hres.
  rewrite (handle_request_tool_execute _ _ m Hm Hname Hid). cbv zeta.
  unfold get_default at 1 2 3. rewrite Hp. cbn [default from_option id].
  assert (Hr : resolve_tool_name (JDict params) = JStr t).
  { unfold resolve_tool_name. destruct Ht as [Ht | [Hnone Ht]].
    - rewrite Ht. reflexivity.
    - rewrite Hnone. exact Ht. }
  rewrite Hr. cbn [handlers_get resolve_arguments]. rewrite Hreg, Hres. reflexivity.
Qed.

End DispatcherProperties.

Lemma handler_result_witness :
  _handle_request EchoServer.server Samples.execute_echo =
    (EchoServer.server,
     Return (Some (result_response (JInt 2) (JDict [("message", JStr "Echo: hi")])))).
Proof.
  apply (handler_result_is_returned EchoServer.server Samples.execute_echo
           "tool/execute" "echo"
           [("tool_name", JStr "echo"); ("arguments", JDict [("text", JStr "hi")])]
           EchoServer.handle_echo (JDict [("message", JStr "Echo: hi")]));
    [reflexivity | left; reflexivity | reflexivity | reflexivity | left; reflexivity
    | reflexivity | reflexivity].
Defined.

(** ** More on the framer of the base server *)

Section FramerProperties.

Implicit Types (s : stream) (d hd : bytes).

Lemma decode_Some d t : decode d = Some t → b t = d.
Proof.
  unfold decode. destruct (utf8_valid d); [|discriminate].
  intros [= <-]. apply list_ascii_of_string_of_list_ascii.
Qed.

Lemma decode_both_frame hd d h c :
  decode_both hd d = (Some h, Some c) → b h = hd ∧ b c = d.
Proof.
  unfold decode_both. destruct (decode hd) eqn:E1; [|discriminate].
  destruct (decode d) eqn:E2; [|discriminate].
  intros [= <- <-]. split; apply decode_Some; assumption.
Qed.

Lemma read_content_accounts hd s h c s' :
  read_content hd s = ((Some h, Some c), s') →
  hd ++ contents s = b h ++ b c ++ contents s' ∧ b h = hd.
Proof.
  unfold read_content. destruct (search_content_length hd) as [ds|]; [|discriminate].
  pose proof (read_contents (int_of_digits ds) s) as Hc.
  destruct (read (int_of_digits ds) s) as [content_data s1]. cbn [fst snd] in Hc.
  destruct (negb _); [discriminate|]. intros [= Hd <-].
  apply decode_both_frame in Hd as [-> ->]. rewrite Hc. split; reflexivity.
Qed.

Lemma read_content_escaped_accounts hd s h c s' :
  read_content_escaped hd s = ((Some h, Some c), s') →
  hd ++ contents s = b h ++ b c ++ contents s' ∧ (length (b h) ≤ length hd)%nat.
Proof.
  unfold read_content_escaped.
  destruct (search_content_length hd) as [ds|]; [|discriminate].
  set (pos := Z.to_nat (find ESCAPED hd + 8)).
  set (n := (int_of_digits ds - length (drop pos hd))%nat).
  assert (Hgen : ∀ remaining s1,
            contents s = remaining ++ contents s1 →
            (decode_both (take pos hd) (drop pos hd ++ remaining), s1)
              = ((Some h, Some c), s') →
            hd ++ contents s = b h ++ b c ++ contents s'
            ∧ (length (b h) ≤ length hd)%nat).
  { intros remaining s1 Hc [= Hd <-].
    apply decode_both_frame in Hd as [-> ->].
    split; [|rewrite length_take; lia].
    rewrite Hc, <- !app_assoc, (app_assoc (take pos hd) (drop pos hd)), take_drop.
    reflexivity. }
  destruct (0 <? n)%nat.
  - pose proof (read_contents n s) as Hc.
    destruct (read n s) as [remaining s1]. cbn [fst snd] in Hc.
    apply Hgen. exact Hc.
  - apply (Hgen [] s). reflexivity.
Qed.

Lemma header_loop_accounts fuel : ∀ hd s h c s',
  header_loop fuel hd s = Some ((Some h, Some c), s') →
  (length hd ≤ 4096)%nat →
  hd ++ contents s = b h ++ b c ++ contents s' ∧ (length (b h) ≤ 4097)%nat.
Proof.
  induction fuel as [|fuel IH]; intros hd s h c s'; [discriminate|].
  cbn [header_loop]. pose proof (read_contents 1 s) as Hc.
  pose proof (read_length 1 s) as Hl.
  destruct (read 1 s) as [chunk s1]. cbn [fst snd] in Hc, Hl.
  destruct chunk as [|x chunk]; [discriminate|].
  destruct chunk; [|simpl in Hl; lia].
  intros H Hlen.
  assert (Hlen' : length (hd ++ [x]) = S (length hd))
    by (rewrite length_app; simpl; lia).
  assert (Hshift : hd ++ contents s = (hd ++ [x]) ++ contents s1)
    by (rewrite Hc, <- app_assoc; reflexivity).
  rewrite Hshift.
  destruct (contains CRLF_CRLF (hd ++ [x])).
  { injection H as H. apply read_content_accounts in H as [H Hh].
    split; [exact H|]. rewrite Hh. lia. }
  destruct (contains LF_LF (hd ++ [x])).
  { injection H as H. apply read_content_accounts in H as [H Hh].
    split; [exact H|]. rewrite Hh. lia. }
  destruct (contains ESCAPED (hd ++ [x])).
  { injection H as H. apply read_content_escaped_accounts in H as [H Hh].
    split; [exact H|]. lia. }
  destruct (4096 <? length (hd ++ [x]))%nat eqn:Hcap; [discriminate|].
  apply Nat.ltb_ge in Hcap. apply (IH _ _ _ _ _ H). exact Hcap.
Qed.

(** The framer neither loses nor invents bytes: the header text and the
    content text of a frame are, in this order, the bytes that were taken
    from the input, and the input that is left starts right after them.  The
    header text never exceeds 4097 bytes.  When no frame is returned, what
    is left is still a suffix of the input. *)
Theorem framer_accounts_for_the_input s f s' :
  _read_header_and_content s = (f, s') →
  (∀ h c, f = (Some h, Some c) →
          contents s = b h ++ b c ++ contents s' ∧ (length (b h) ≤ 4097)%nat) ∧
  (f = no_frame ∨ is_frame f) ∧
  (∃ d, contents s = d ++ contents s').
Proof.
  intros H. pose proof (read_header_and_content_total s) as Ht. rewrite H in Ht.
  split; [|split].
  - intros h c ->. apply (header_loop_accounts _ _ _ _ _ _ Ht). simpl. lia.
  - apply (header_loop_consumes _ _ _ _ _ Ht).
  - destruct (header_loop_consumes _ _ _ _ _ Ht) as [_ (d & Hd & _)]. eauto.
Qed.

End FramerProperties.

Lemma framer_accounts_witness :
  (∀ h c, (Some "Content-Length: 2

", Some "{}") = (Some h, Some c) →
          contents (Samples.framed LF_LF) = b h ++ b c ++ contents [b "Content-Length: 0"]
          ∧ (length (b h) ≤ 4097)%nat) ∧
  ((Some "Content-Length: 2

", Some "{}") = no_frame
   ∨ is_frame (Some "Content-Length: 2

", Some "{}")) ∧
  (∃ d, contents (Samples.framed LF_LF) = d ++ contents [b "Content-Length: 0"]).
Proof.
  apply (framer_accounts_for_the_input (Samples.framed LF_LF)
           (Some "Content-Length: 2

", Some "{}") [b "Content-Length: 0"]).
  vm_compute. reflexivity.
Defined.

(** ** More on the message loop of the base server *)

Section LoopProperties.

Variable json_loads : string → option json.

Implicit Types (self : McpBaseServer) (s : stream) (request : list (string * json)).

Lemma run_loop_fuel fuel1 : ∀ fuel2 self s,
  (length (contents s) < fuel1)%nat → (length (contents s) < fuel2)%nat →
  run_loop json_loads fuel1 self s = run_loop json_loads fuel2 self s.
Proof.
  induction fuel1 as [|fuel1 IH]; intros fuel2 self s H1 H2; [lia|].
  destruct fuel2 as [|fuel2]; [lia|]. cbn [run_loop].
  destruct (_shutdown_requested self); [reflexivity|].
  pose proof (loop_body_progress json_loads self s) as Hp.
  destruct (loop_body json_loads self s) as [[self1 s1] out1]. cbn [fst snd] in Hp.
  destruct Hp as [Hset | Hlt].
  - rewrite !(run_loop_after_shutdown json_loads _ _ _ Hset). reflexivity.
  - rewrite (IH fuel2 self1 s1) by lia. reflexivity.
Qed.

(** The message loop terminates on every input: it ends because the
    shutdown was requested, within one iteration per byte of input and one
    more, so that giving it more iterations changes nothing. *)
Theorem message_loop_terminates self s :
  _shutdown_requested (_run_message_loop json_loads self s).1.1 = true ∧
  (∀ fuel, (length (contents s) < fuel)%nat →
           run_loop json_loads fuel self s = _run_message_loop json_loads self s) ∧
  (_shutdown_requested (loop_body json_loads self s).1.1 = true ∨
   (length (contents (loop_body json_loads self s).1.2) < length (contents s))%nat).
Proof.
  split; [apply run_message_loop_stops|]. split; [|apply loop_body_progress].
  intros fuel Hfuel. apply run_loop_fuel; [exact Hfuel|lia].
Qed.

(** The loop is one iteration followed by the loop on what is left. *)
Lemma message_loop_unrolls self s :
  _shutdown_requested self = false →
  _run_message_loop json_loads self s =
    let '(self1, s1, out) := loop_body json_loads self s in
    let '(self2, s2, out') := _run_message_loop json_loads self1 s1 in
    (self2, s2, out ++ out').
Proof.
  intros Hrun. unfold _run_message_loop at 1. cbn [run_loop]. rewrite Hrun.
  pose proof (loop_body_progress json_loads self s) as Hp.
  destruct (loop_body json_loads self s) as [[self1 s1] out1]. cbn [fst snd] in Hp.
  unfold _run_message_loop.
  destruct Hp as [Hset | Hlt].
  - rewrite !(run_loop_after_shutdown json_loads _ _ _ Hset). reflexivity.
  - rewrite (run_loop_fuel (length (contents s)) (S (length (contents s1))) self1 s1)
      by lia.
    reflexivity.
Qed.

(** A frame whose body is not JSON, or is a JSON document other than an
    object, is dropped without any response, parse error included, and
    without a change of state: the loop serves what follows the frame as if
    the frame had not been there. *)
Theorem undecodable_body_is_skipped self s header content s' :
  _shutdown_requested self = false →
  _read_header_and_content s = ((Some header, Some content), s') →
  json_loads content = None ∨
    (∃ v, json_loads content = Some v ∧ ∀ d, v ≠ JDict d) →
  loop_body json_loads self s = (self, s', []) ∧
  _run_message_loop json_loads self s = _run_message_loop json_loads self s'.
Proof.
  intros Hrun Hf Hbad.
  assert (Hbody : loop_body json_loads self s = (self, s', [])).
  { unfold loop_body. rewrite Hf. destruct Hbad as [-> | (v & -> & Hv)]; [reflexivity|].
    destruct v; try reflexivity. destruct (Hv d eq_refl). }
  split; [exact Hbody|].
  rewrite (message_loop_unrolls self s Hrun), Hbody.
  destruct (_run_message_loop json_loads self s') as [[self2 s2] out2]. reflexivity.
Qed.

(** An [exit] message ends the loop and gets no response, whether it has
    an id or not; what follows it in the input is not read. *)
Theorem exit_ends_the_loop self s header content s' request :
  _shutdown_requested self = false →
  _read_header_and_content s = ((Some header, Some content), s') →
  json_loads content = Some (JDict request) →
  get request "method" = JStr "exit" →
  _run_message_loop json_loads self s = (set_shutdown_requested true self, s', []).
Proof.
  intros Hrun Hf Hl Hm. apply run_message_loop_last; [exact Hrun| |reflexivity].
  rewrite (loop_body_dispatch json_loads self s header content s' request
             (set_shutdown_requested true self) None Hf Hl).
  - reflexivity.
  - unfold _handle_request. rewrite Hm. reflexivity.
  - intros r [=].
Qed.

(** An input that ends before any header terminator, the empty input
    included, ends the loop without output once it has been read to its
    end. *)
Theorem end_of_input_ends_the_loop self s :
  _shutdown_requested self = false →
  (length (contents s) ≤ 4096)%nat →
  (∀ j, terminated (take j (contents s)) = false) →
  _run_message_loop json_loads self s = (set_shutdown_requested true self, [], []).
Proof.
  intros Hrun Hlen Hscan. apply framing_failure_stops_loop; [exact Hrun|].
  unfold _read_header_and_content.
  rewrite (header_loop_scan (contents s) 4097 [] s []);
    [|rewrite app_nil_r; reflexivity|lia
     |intros j Hj; simpl app; split; [apply Hscan|rewrite length_take; lia]].
  pose proof (advance_contents (contents s) [] s ltac:(rewrite app_nil_r; reflexivity))
    as Hend.
  destruct (4097 - length (contents s))%nat as [|fuel] eqn:E; [lia|].
  cbn [header_loop]. rewrite (read_at_end 1 _ Hend). reflexivity.
Qed.

End LoopProperties.

Lemma end_of_input_witness :
  _run_message_loop Samples.loads EchoServer.server Inputs.cut_header =
    (set_shutdown_requested true EchoServer.server, [], []).
Proof.
  apply (end_of_input_ends_the_loop Samples.loads EchoServer.server Inputs.cut_header);
    [reflexivity | vm_compute; lia |].
  intros j. apply plain_not_terminated, plain_take.
  apply (field_plain (b "45")). reflexivity.
Defined.

Lemma exit_ends_the_loop_witness :
  _run_message_loop Samples.loads EchoServer.server Inputs.exit_then_ping =
    (set_shutdown_requested true EchoServer.server, [Samples.ping_message], []).
Proof.
  apply (exit_ends_the_loop Samples.loads EchoServer.server Inputs.exit_then_ping
           (string_of_list_ascii
              (Peer.header CRLF_CRLF
                 (length (b (Peer.dumps (JDict Samples.exit_notification))))))
           (Peer.dumps (JDict Samples.exit_notification))
           [Samples.ping_message] Samples.exit_notification);
    [reflexivity | vm_compute; reflexivity | vm_compute; reflexivity | reflexivity].
Defined.

Lemma undecodable_body_witness :
  loop_body Samples.loads Samples.memstore Inputs.number_then_ping =
    (Samples.memstore, [Samples.ping_message], []) ∧
  _run_message_loop Samples.loads Samples.memstore Inputs.number_then_ping =
    _run_message_loop Samples.loads Samples.memstore [Samples.ping_message].
Proof.
  apply (undecodable_body_is_skipped Samples.loads Samples.memstore
           Inputs.number_then_ping
           (string_of_list_ascii (Peer.header CRLF_CRLF 1)) "9"
           [Samples.ping_message]);
    [reflexivity | vm_compute; reflexivity |].
  right. exists (JInt 9). split; [vm_compute; reflexivity | discriminate].
Defined.

(** ** The dispatcher and the state of the server *)

Section DispatcherState.

Implicit Types (self : McpBaseServer) (request : list (string * json)).

(** The dispatcher changes nothing but the two flags, and only sets them:
    [initialize] sets [_initialized], [shutdown] and [exit] set
    [_shutdown_requested], and no message clears either.  It never reads
    them: the outcome of a message is the same whatever the flags are, so a
    tool is executed before the handshake as well as after it. *)
Theorem dispatch_only_sets_the_flags self request :
  let method := get request "method" in
  let self' := (_handle_request self request).1 in
  (name self' = name self ∧ version self' = version self ∧
   tools self' = tools self ∧ tool_handlers self' = tool_handlers self) ∧
  _initialized self' = str_eq method "initialize" || _initialized self ∧
  _shutdown_requested self' =
    str_eq method "shutdown" || str_eq method "exit" || _shutdown_requested self ∧
  ∀ initialized shutdown_requested,
    (_handle_request
       (set_initialized initialized (set_shutdown_requested shutdown_requested self))
       request).2
    = (_handle_request self request).2.
Proof.
  cbv zeta. unfold _handle_request.
  destruct (get request "method") as [| | |m| |] eqn:Hm; cbn [str_eq orb];
    try (destruct (is_lsp_notification _) as [[|]|];
         destruct (negb (is_none (get request "id")));
         repeat split; reflexivity).
  destruct (String.eqb_spec m "initialize") as [->|_].
  { destruct (negb (is_none (get request "id"))); repeat split; reflexivity. }
  destruct (String.eqb_spec m "shutdown") as [->|_].
  { destruct (negb (is_none (get request "id"))); repeat split; reflexivity. }
  destruct (String.eqb_spec m "exit") as [->|_]; [repeat split; reflexivity|].
  destruct (String.eqb m "tool/execute" || String.eqb m "mcp/tool/execute").
  { destruct (is_none (get request "id")); [repeat split; reflexivity|].
    cbn [tool_handlers set_initialized set_shutdown_requested].
    destruct (handlers_get _ _) as [[h|]|]; [|repeat split; reflexivity..].
    destruct (h _); repeat split; reflexivity. }
  destruct (is_lsp_notification _) as [[|]|];
    destruct (negb (is_none (get request "id"))); repeat split; reflexivity.
Qed.

(** The dispatcher raises in two cases only: a tool request with an id
    whose tool name is a list or a mapping, which cannot be looked up in
    the handler table, and a method that is neither a string nor a false
    value, which has no [startswith].  The state is then unchanged. *)
Theorem dispatcher_raises_exactly self request (e : exn) :
  let method := get request "method" in
  let tool_name := resolve_tool_name (get_default request "params" (JDict [])) in
  _handle_request self request = (self, Raise e) ↔
  ((method = JStr "tool/execute" ∨ method = JStr "mcp/tool/execute") ∧
   is_none (get request "id") = false ∧ hashable tool_name = false ∧
   e = unhashable tool_name)
  ∨ ((∀ m, method ≠ JStr m) ∧ truthy method = true ∧
     e = no_attribute method "startswith").
Proof.
  cbv zeta. split.
  - unfold _handle_request.
    destruct (get request "method") as [|bv|z|m|l|d] eqn:Hm; cbn [str_eq orb].
    + cbn. destruct (negb (is_none (get request "id"))); discriminate.
    + destruct bv; cbn; [|destruct (negb (is_none (get request "id"))); discriminate].
      intros [= <-]. right. repeat split; discriminate.
    + unfold is_lsp_notification. destruct (truthy (JInt z)) eqn:Ht;
        [|destruct (negb (is_none (get request "id"))); discriminate].
      intros [= <-]. right. repeat split; discriminate.
    + destruct (String.eqb_spec m "initialize") as [->|_];
        [destruct (negb (is_none (get request "id"))); discriminate|].
      destruct (String.eqb_spec m "shutdown") as [->|_];
        [destruct (negb (is_none (get request "id"))); discriminate|].
      destruct (String.eqb_spec m "exit") as [->|_]; [discriminate|].
      destruct (String.eqb m "tool/execute" || String.eqb m "mcp/tool/execute") eqn:Htool.
      * assert (Hm' : JStr m = JStr "tool/execute" ∨ JStr m = JStr "mcp/tool/execute").
        { apply orb_true_iff in Htool as [H|H]; apply String.eqb_eq in H; subst; auto. }
        destruct (is_none (get request "id")) eqn:Hid; [discriminate|].
        destruct (resolve_tool_name _) as [| | |t|l|d] eqn:Hr; cbn [handlers_get];
          try discriminate.
        -- destruct (tool_handlers self !! t) as [h|]; [destruct (h _)|]; discriminate.
        -- intros [= <-]. left. auto.
        -- intros [= <-]. left. auto.
      * unfold is_lsp_notification.
        destruct (truthy (JStr m)); [destruct (startswith m "$/")|];
          try destruct (negb (is_none (get request "id"))); discriminate.
    + unfold is_lsp_notification. destruct (truthy (JList l)) eqn:Ht;
        [|destruct (negb (is_none (get request "id"))); discriminate].
      intros [= <-]. right. repeat split; discriminate.
    + unfold is_lsp_notification. destruct (truthy (JDict d)) eqn:Ht;
        [|destruct (negb (is_none (get request "id"))); discriminate].
      intros [= <-]. right. repeat split; discriminate.
  - intros [(Hmeth & Hid & Hh & ->) | (Hns & Htr & ->)].
    + assert (Hex : ∃ m, get request "method" = JStr m
                         ∧ (m = "tool/execute" ∨ m = "mcp/tool/execute")).
      { destruct Hmeth as [H|H]; eexists; (split; [exact H|auto]). }
      destruct Hex as (m & Hm & Hname).
      rewrite (handle_request_tool_execute _ _ m Hm Hname Hid). cbv zeta.
      destruct (resolve_tool_name _); try discriminate Hh; reflexivity.
    + unfold _handle_request.
      destruct (get request "method") as [|bv|z|m|l|d] eqn:Hm; cbn [str_eq orb];
        [discriminate Htr| | |destruct (Hns m eq_refl)| |];
        unfold is_lsp_notification; rewrite Htr; reflexivity.
Qed.

(** A tool that has just been registered is the one that serves the
    requests for its name, whatever was registered under that name before:
    the response carries what the handler returns, or the error -32000 with
    the text of what it raises.  Registrations under other names leave it
    in place. *)
Theorem registered_tool_is_served
    self request (m t : string) (params : list (string * json)) (h : handler) :
  get request "method" = JStr m →
  m = "tool/execute" ∨ m = "mcp/tool/execute" →
  is_none (get request "id") = false →
  dict_lookup request "params" = Some (JDict params) →
  get params "tool_name" = JStr t →
  let answer :=
    match h (get_default params "arguments" (JDict [])) with
    | Returned result => result_response (get request "id") result
    | Failed e =>
        error_response (get request "id") (-32000) ("Tool execution error: " +:+ e)
    end in
  _handle_request (register_tool self t h) request =
    (register_tool self t h, Return (Some answer)) ∧
  ∀ regs, t ∉ regs.*1 →
    _handle_request (register_all (register_tool self t h) regs) request =
      (register_all (register_tool self t h) regs, Return (Some answer)).
Proof.
  intros Hm Hname Hid Hp Ht answer.
  assert (Hserve : ∀ self', tool_handlers self' !! t = Some h →
            _handle_request self' request = (self', Return (Some answer))).
  { intros self' Hreg.
    rewrite (handle_request_tool_execute _ _ m Hm Hname Hid). cbv zeta.
    unfold get_default at 1 2 3. rewrite Hp. cbn [default from_option id].
    unfold resolve_tool_name. rewrite Ht. cbn [is_none handlers_get resolve_arguments].
    rewrite Hreg. subst answer. destruct (h _); reflexivity. }
  split.
  - apply Hserve. cbn [register_tool tool_handlers]. apply lookup_insert_eq.
  - intros regs Hfresh. apply Hserve.
    assert (Hgen : ∀ self', tool_handlers self' !! t = Some h →
              tool_handlers (register_all self' regs) !! t = Some h).
    { clear Hserve. induction regs as [|[t' h'] regs IH]; intros self' Hreg; [exact Hreg|].
      cbn [fmap list_fmap fst] in Hfresh. apply not_elem_of_cons in Hfresh as [Hne Hfresh].
      unfold register_all. cbn [foldl]. apply (IH Hfresh).
      cbn [register_tool tool_handlers fst snd]. rewrite lookup_insert_ne by congruence.
      exact Hreg. }
    apply Hgen. cbn [register_tool tool_handlers]. apply lookup_insert_eq.
Qed.

End DispatcherState.

Lemma registered_tool_witness :
  _handle_request
    (register_tool EchoServer.server "echo" EchoServer.handle_fail)
    Samples.execute_echo =
    (register_tool EchoServer.server "echo" EchoServer.handle_fail,
     Return (Some (error_response (JInt 2) (-32000)
                     "Tool execution error: This tool failed intentionally!"))) ∧
  ∀ regs, "echo" ∉ regs.*1 →
    _handle_request
      (register_all (register_tool EchoServer.server "echo" EchoServer.handle_fail) regs)
      Samples.execute_echo =
      (register_all (register_tool EchoServer.server "echo" EchoServer.handle_fail) regs,
       Return (Some (error_response (JInt 2) (-32000)
                       "Tool execution error: This tool failed intentionally!"))).
Proof.
  apply (registered_tool_is_served EchoServer.server Samples.execute_echo
           "tool/execute" "echo"
           [("tool_name", JStr "echo"); ("arguments", JDict [("text", JStr "hi")])]
           EchoServer.handle_fail);
    [reflexivity | left; reflexivity | reflexivity | reflexivity | reflexivity].
Defined.

(** ** The command server *)

Section CommandProperties.

Variable isdir : string → bool.
Variable run : list string → option string → json → CommandServer.run_result.
Variable environ : gmap string string.

Lemma truthy_nonempty (c : string) : c ≠ "" → truthy (JStr c) = true.
Proof. intros H. simpl. destruct (String.eqb_spec c ""); [contradiction|reflexivity]. Qed.

Lemma all_strings (l : list string) :
  forallb CommandServer.is_str (JStr <$> l) = true ∧
  CommandServer.strings_of (JStr <$> l) = l.
Proof.
  induction l as [|x l [IH1 IH2]]; [split; reflexivity|].
  split; [exact IH1|]. unfold CommandServer.strings_of in *. simpl. f_equal. exact IH2.
Qed.

(** Once its arguments pass the checks and the working directory exists,
    [execute_command] never raises: whatever happens to the process comes
    back as a result.  A process that completes is reported with its exit
    code and its two outputs, and [success] is true exactly when the exit
    code is 0; a process that could not be run or timed out is reported
    with [success] false, an empty [stdout] and the kind of the error. *)
Theorem execute_command_reports_every_outcome
    (a : list (string * json)) (c d : string) (l : list string) :
  get a "command" = JStr c → c ≠ "" →
  get a "args" = JList (JStr <$> l) ∨ (get a "args" = JNull ∧ l = []) →
  get a "working_dir" = JStr d ∨ (get a "working_dir" = JNull ∧ d = "") →
  (d ≠ "" → isdir d = true) →
  get a "timeout_secs" = JNull ∨ (∃ z, get a "timeout_secs" = JInt z ∧ (0 < z)%Z) →
  ∃ result,
    CommandServer.execute_command isdir run (JDict a) = Returned (JDict result) ∧
    match run (c :: l) (if decide (d = "") then None else Some d)
            (get a "timeout_secs") with
    | CommandServer.Completed returncode stdout stderr =>
        result = [("exit_code", JInt returncode); ("stdout", JStr stdout);
                  ("stderr", JStr stderr); ("success", JBool (returncode =? 0)%Z)]
    | _ =>
        get result "success" = JBool false ∧ get result "stdout" = JStr "" ∧
        get result "exit_code" ≠ JInt 0 ∧ ∃ kind, get result "error" = JStr kind
    end.
Proof.
  intros Hc Hne Hargs Hwd Hdir Htime. unfold CommandServer.execute_command. cbv zeta.
  rewrite Hc, (truthy_nonempty c Hne). cbn [negb orb CommandServer.is_str str].
  destruct (all_strings l) as [Hall Hstrs].
  assert (Hargs_ok :
    negb (is_none (get a "args"))
    && (negb (CommandServer.is_list (get a "args"))
        || negb (match get a "args" with
                 | JList l0 => forallb CommandServer.is_str l0
                 | _ => false
                 end)) = false
    ∧ match get a "args" with
      | JList l0 => CommandServer.strings_of l0
      | _ => []
      end = l).
  { destruct Hargs as [-> | [-> ->]]; [|split; reflexivity].
    cbn [is_none negb andb CommandServer.is_list orb]. rewrite Hall, Hstrs.
    split; reflexivity. }
  destruct Hargs_ok as [-> ->].
  assert (Hwd_ok :
    negb (is_none (get a "working_dir")) && negb (CommandServer.is_str (get a "working_dir"))
      = false
    ∧ truthy (get a "working_dir") = negb (String.eqb d "")
    ∧ (truthy (get a "working_dir") = true → str (get a "working_dir") = d)).
  { destruct Hwd as [-> | [-> ->]]; repeat split; first [reflexivity | discriminate]. }
  destruct Hwd_ok as (-> & Htruthy & Hstr). rewrite Htruthy.
  assert (Htime_ok :
    negb (is_none (get a "timeout_secs"))
    && (negb (CommandServer.is_int (get a "timeout_secs"))
        || CommandServer.le_zero (get a "timeout_secs")) = false).
  { destruct Htime as [-> | (z & -> & Hz)]; [reflexivity|].
    cbn. apply Z.leb_gt. exact Hz. }
  rewrite Htime_ok.
  destruct (String.eqb_spec d "") as [-> | Hd]; cbn [negb andb].
  - destruct (decide ("" = "")) as [_|H]; [|destruct (H eq_refl)].
    destruct (run _ _ _); eexists; (split; [reflexivity|]);
      first [reflexivity | repeat split; first [discriminate | eexists; reflexivity]].
  - rewrite Htruthy in Hstr. rewrite (Hstr ltac:(destruct (String.eqb_spec d ""); auto)).
    rewrite (Hdir Hd). cbn [negb].
    destruct (decide (d = "")) as [H|_]; [contradiction|].
    destruct (run _ _ _); eexists; (split; [reflexivity|]);
      first [reflexivity | repeat split; first [discriminate | eexists; reflexivity]].
Qed.

(** Every error that [execute_command] raises is raised before anything is
    run, so it does not depend on what running the command would do: it is
    one of the four complaints about the arguments, or it tells that the
    working directory does not exist. *)
Theorem execute_command_raises_before_running (a : list (string * json)) (e : string) :
  CommandServer.execute_command isdir run (JDict a) = Failed e →
  (∀ run', CommandServer.execute_command isdir run' (JDict a) = Failed e) ∧
  (e = "Missing or invalid required field: command (string)"
   ∨ e = "Invalid field: args must be a list of strings"
   ∨ e = "Invalid field: working_dir must be a string"
   ∨ e = "Invalid field: timeout_secs must be a positive integer"
   ∨ ∃ d, get a "working_dir" = JStr d ∧ d ≠ "" ∧ isdir d = false
          ∧ e = "Working directory not found: " +:+ d).
Proof.
  unfold CommandServer.execute_command. cbv zeta.
  destruct (negb (truthy (get a "command")) || negb (CommandServer.is_str (get a "command"))).
  { intros [= <-]. split; [reflexivity|auto]. }
  destruct (negb (is_none (get a "args")) && _).
  { intros [= <-]. split; [reflexivity|auto]. }
  destruct (negb (is_none (get a "working_dir")) && _) eqn:Hwd.
  { intros [= <-]. split; [reflexivity|auto]. }
  destruct (negb (is_none (get a "timeout_secs")) && _).
  { intros [= <-]. split; [reflexivity|auto 6]. }
  destruct (truthy (get a "working_dir")) eqn:Htruthy; cbn [andb].
  - destruct (isdir (str (get a "working_dir"))) eqn:Hdir; cbn [negb].
    + destruct (run _ _ _); discriminate.
    + intros [= <-]. split; [reflexivity|]. do 4 right.
      destruct (get a "working_dir") as [| | |d| |];
        try discriminate Hwd; try discriminate Htruthy.
      exists d. repeat split; [|exact Hdir].
      intros ->. discriminate Htruthy.
  - destruct (run _ _ _); discriminate.
Qed.

(** [get_environment_variable], as the command server serves it: the value
    of the variable and [exists] true when the environment has it, also when
    the value is empty; a null value and [exists] false when it has not. *)
Theorem environment_variable_is_looked_up
    (request params arguments : list (string * json)) (m n : string) :
  get request "method" = JStr m →
  m = "tool/execute" ∨ m = "mcp/tool/execute" →
  is_none (get request "id") = false →
  dict_lookup request "params" = Some (JDict params) →
  resolve_tool_name (JDict params) = JStr "get_environment_variable" →
  dict_lookup params "arguments" = Some (JDict arguments) →
  get arguments "name" = JStr n → n ≠ "" →
  _handle_request (CommandServer.server isdir run environ) request =
    (CommandServer.server isdir run environ,
     Return (Some (result_response (get request "id")
                     (JDict [("value", match environ !! n with
                                       | Some value => JStr value
                                       | None => JNull
                                       end);
                             ("exists", JBool (bool_decide (is_Some (environ !! n))))])))).
Proof.
  intros Hm Hname Hid Hp Ht Ha Hn Hne.
  rewrite (handle_request_tool_execute _ _ m Hm Hname Hid). cbv zeta.
  unfold get_default at 1 2. rewrite Hp. cbn [default from_option id].
  rewrite Ht. cbn [handlers_get resolve_arguments].
  unfold get_default. rewrite Ha. cbn [default from_option id].
  replace (tool_handlers (CommandServer.server isdir run environ)
             !! "get_environment_variable")
    with (Some (CommandServer.get_environment_variable environ)) by reflexivity.
  unfold CommandServer.get_environment_variable. cbv zeta.
  rewrite Hn, (truthy_nonempty n Hne). cbn [negb orb CommandServer.is_str str].
  destruct (environ !! n); reflexivity.
Qed.

End CommandProperties.

Lemma execute_command_witness :
  ∃ result,
    CommandServer.execute_command Inputs.isdir Inputs.run (JDict Inputs.echo_arguments)
      = Returned (JDict result) ∧
    result = [("exit_code", JInt 0); ("stdout", JStr "a b"); ("stderr", JStr "");
              ("success", JBool true)].
Proof.
  apply (execute_command_reports_every_outcome Inputs.isdir Inputs.run
           Inputs.echo_arguments "echo" "/tmp" ["a"; "b"]);
    [reflexivity | discriminate | left; reflexivity | left; reflexivity
    | reflexivity | right; exists 5%Z; split; [reflexivity|lia]].
Defined.

Lemma execute_command_raises_witness :
  (∀ run', CommandServer.execute_command Inputs.isdir run'
             (JDict Inputs.missing_directory_arguments)
           = Failed "Working directory not found: /nowhere") ∧
  ("Working directory not found: /nowhere"
     = "Missing or invalid required field: command (string)"
   ∨ "Working directory not found: /nowhere"
     = "Invalid field: args must be a list of strings"
   ∨ "Working directory not found: /nowhere"
     = "Invalid field: working_dir must be a string"
   ∨ "Working directory not found: /nowhere"
     = "Invalid field: timeout_secs must be a positive integer"
   ∨ ∃ d, get Inputs.missing_directory_arguments "working_dir" = JStr d ∧ d ≠ ""
          ∧ Inputs.isdir d = false
          ∧ "Working directory not found: /nowhere"
            = "Working directory not found: " +:+ d).
Proof.
  apply (execute_command_raises_before_running Inputs.isdir Inputs.run
           Inputs.missing_directory_arguments "Working directory not found: /nowhere").
  reflexivity.
Defined.

Lemma environment_variable_witness :
  _handle_request (CommandServer.server Inputs.isdir Inputs.run Inputs.environ)
      Inputs.home_request =
    (CommandServer.server Inputs.isdir Inputs.run Inputs.environ,
     Return (Some (result_response (JInt 11)
                     (JDict [("value", JStr "/root"); ("exists", JBool true)])))).
Proof.
  apply (environment_variable_is_looked_up Inputs.isdir Inputs.run Inputs.environ
           Inputs.home_request
           [("name", JStr "get_environment_variable");
            ("arguments", JDict [("name", JStr "HOME")])]
           [("name", JStr "HOME")] "mcp/tool/execute" "HOME");
    [reflexivity | right; reflexivity | reflexivity | reflexivity | reflexivity
    | reflexivity | reflexivity | discriminate].
Defined.

(** ** The filesystem server *)

Section FilesystemProperties.

Import FilesystemServer.

Variable FS : Type.
Variable abspath : FS → string → os_result string.
Variable exists_ : FS → string → bool.
Variable isdir : FS → string → bool.
Variable dirname : string → string.
Variable scandir : FS → string → os_result (list DirEntry).
Variable read_text : FS → string → option Z → read_result.
Variable getcwd : FS → os_result string.
Variable makedirs : FS → string → option string * FS.
Variable write_text : FS → string → string → option string * FS.
Variable rmtree : FS → string → option string * FS.
Variable remove : FS → string → option string * FS.

Local Abbreviation list_directory := (list_directory FS abspath exists_ isdir scandir).
Local Abbreviation read_file := (read_file FS abspath exists_ isdir read_text).
Local Abbreviation write_file :=
  (write_file FS abspath exists_ isdir dirname makedirs write_text).
Local Abbreviation delete_file := (delete_file FS abspath exists_ isdir rmtree remove).

Implicit Types (fs : FS) (a : list (string * json)).

Lemma path_is_refused a :
  (∀ p, get a "path" = JStr p → p = "") →
  negb (truthy (get a "path")) || negb (CommandServer.is_str (get a "path")) = true.
Proof.
  intros H. destruct (get a "path") as [| | |p| |];
    cbn [CommandServer.is_str negb]; rewrite ?orb_true_r; try reflexivity.
  rewrite (H p eq_refl). reflexivity.
Qed.

Lemma path_is_accepted a p :
  get a "path" = JStr p → p ≠ "" →
  negb (truthy (get a "path")) || negb (CommandServer.is_str (get a "path")) = false.
Proof. intros -> Hp. rewrite (truthy_nonempty p Hp). reflexivity. Qed.

(** The four tools that take a path refuse arguments whose [path] is
    missing, empty or not a string, all with the same error, before they
    look at the file system; the two that write leave it as it was. *)
Theorem filesystem_tools_require_a_path fs a :
  (∀ p, get a "path" = JStr p → p = "") →
  list_directory fs (JDict a) = Failed path_error ∧
  read_file fs (JDict a) = Failed path_error ∧
  write_file fs (JDict a) = (Failed path_error, fs) ∧
  delete_file fs (JDict a) = (Failed path_error, fs).
Proof.
  intros H. pose proof (path_is_refused a H) as Hp.
  unfold FilesystemServer.list_directory, FilesystemServer.read_file,
    FilesystemServer.write_file, FilesystemServer.delete_file.
  cbv zeta. rewrite Hp. repeat split; reflexivity.
Qed.

(** Without [create_dirs], or with [create_dirs] false, [write_file] makes
    no directory: a path that is a directory is refused and nothing
    changes; otherwise the text, which may be empty, is written, and the
    result is a success or the error of that one write. *)
Theorem write_file_without_create_dirs fs a (p c ap : string) :
  get a "path" = JStr p → p ≠ "" →
  get a "content" = JStr c →
  dict_lookup a "create_dirs" = None ∨ dict_lookup a "create_dirs" = Some (JBool false) →
  abspath fs p = Ok ap →
  write_file fs (JDict a) =
    if isdir fs ap then (Failed ("Path exists and is a directory: " +:+ ap), fs)
    else
      (match (write_text fs ap c).1 with
       | None => Returned (JDict [("success", JBool true)])
       | Some e => Failed ("Could not write file " +:+ ap +:+ ": " +:+ e)
       end, (write_text fs ap c).2).
Proof.
  intros Hp Hne Hc Hcreate Habs. unfold FilesystemServer.write_file. cbv zeta.
  rewrite (path_is_accepted a p Hp Hne), Hc, Hp. cbn [is_none CommandServer.is_str negb orb str].
  assert (Hdirs : get_default a "create_dirs" (JBool false) = JBool false).
  { unfold get_default. destruct Hcreate as [-> | ->]; reflexivity. }
  rewrite Hdirs, Habs. cbn [andb].
  destruct (isdir fs ap); [reflexivity|].
  destruct (write_text fs ap c) as [[e|] fs']; reflexivity.
Qed.

(** A negative [max_size] is no limit: [read_file] then returns what it
    returns without [max_size]. *)
Theorem read_file_negative_limit fs a a' (z : Z) :
  get a' "path" = get a "path" →
  get a "max_size" = JInt z → (z < 0)%Z →
  dict_lookup a' "max_size" = None →
  read_file fs (JDict a) = read_file fs (JDict a').
Proof.
  intros Hp Hm Hz Hnone. unfold FilesystemServer.read_file. cbv zeta.
  assert (Hm' : get a' "max_size" = JNull) by (unfold get; rewrite Hnone; reflexivity).
  rewrite Hp, Hm, Hm'.
  assert (Hlimit : size_limit (JInt z) = size_limit JNull).
  { unfold size_limit. cbn [int_value]. destruct (Z.leb_spec 0 z); [lia|reflexivity]. }
  rewrite Hlimit. reflexivity.
Qed.

(** [write_file] and [delete_file] change the file system only in a call
    that succeeds or that fails in the operating system while writing or
    deleting: every other error leaves the file system as it was.  Their
    only result is a success. *)
Theorem failed_checks_leave_the_files_untouched fs (args : json) :
  (∀ e fs', write_file fs args = (Failed e, fs') →
     fs' = fs ∨ ∃ ap e', abspath fs (str (match args with
                                          | JDict a => get a "path"
                                          | _ => JNull
                                          end)) = Ok ap
                         ∧ e = "Could not write file " +:+ ap +:+ ": " +:+ e') ∧
  (∀ e fs', delete_file fs args = (Failed e, fs') →
     fs' = fs ∨ ∃ ap e', abspath fs (str (match args with
                                          | JDict a => get a "path"
                                          | _ => JNull
                                          end)) = Ok ap
                         ∧ e = "Could not delete " +:+ ap +:+ ": " +:+ e') ∧
  (∀ result fs', write_file fs args = (Returned result, fs')
                 ∨ delete_file fs args = (Returned result, fs') →
     result = JDict [("success", JBool true)]).
Proof.
  destruct args as [| | | | |a]; try (repeat split; [intros e fs' [= _ <-]; auto..|
                                      intros result fs' [[=]|[=]]]).
  unfold FilesystemServer.write_file, FilesystemServer.delete_file. cbv zeta.
  destruct (negb (truthy (get a "path")) || negb (CommandServer.is_str (get a "path"))).
  { repeat split; [intros e fs' [= _ <-]; auto..|intros result fs' [[=]|[=]]]. }
  destruct (abspath fs (str (get a "path"))) as [ap|e0];
    [|destruct (is_none (get a "content") || negb (CommandServer.is_str (get a "content")));
      [|destruct (get_default a "create_dirs" (JBool false))];
      (repeat split; [intros e fs' [= _ <-]; auto..|intros result fs' [[=]|[=]]])].
  assert (Hdelete :
    ∀ r fs', (if negb (exists_ fs ap)
              then (Failed ("File or directory not found: " +:+ ap), fs)
              else let '(raised, fs0) :=
                     if isdir fs ap then rmtree fs ap else remove fs ap in
                   match raised with
                   | Some e => (Failed ("Could not delete " +:+ ap +:+ ": " +:+ e), fs0)
                   | None => (Returned (JDict [("success", JBool true)]), fs0)
                   end) = (r, fs') →
      match r with
      | Failed e => fs' = fs ∨ ∃ ap0 e', Ok ap = Ok ap0
                                         ∧ e = "Could not delete " +:+ ap0 +:+ ": " +:+ e'
      | Returned result => result = JDict [("success", JBool true)]
      end).
  { intros r fs'. destruct (negb (exists_ fs ap)); [intros [= <- <-]; auto|].
    destruct (if isdir fs ap then rmtree fs ap else remove fs ap) as [[e|] fs0];
      intros [= <- <-]; eauto. }
  assert (Hwrite :
    ∀ r fs',
      (if is_none (get a "content") || negb (CommandServer.is_str (get a "content"))
       then (Failed "Missing or invalid required field: content (string)", fs)
       else
         match get_default a "create_dirs" (JBool false) with
         | JBool create =>
             if isdir fs ap
             then (Failed ("Path exists and is a directory: " +:+ ap), fs)
             else
               let could_not e :=
                 Failed ("Could not write file " +:+ ap +:+ ": " +:+ e) in
               let '(raised, fs0) :=
                 if create && negb (exists_ fs (dirname ap))
                 then makedirs fs (dirname ap) else (None, fs) in
               match raised with
               | Some e => (could_not e, fs0)
               | None =>
                   let '(raised0, fs1) := write_text fs0 ap (str (get a "content")) in
                   match raised0 with
                   | Some e => (could_not e, fs1)
                   | None => (Returned (JDict [("success", JBool true)]), fs1)
                   end
               end
         | _ => (Failed "Invalid field: create_dirs must be a boolean", fs)
         end) = (r, fs') →
      match r with
      | Failed e => fs' = fs ∨ ∃ ap0 e', Ok ap = Ok ap0
                                         ∧ e = "Could not write file " +:+ ap0 +:+ ": " +:+ e'
      | Returned result => result = JDict [("success", JBool true)]
      end).
  { intros r fs'. destruct (is_none _ || _); [intros [= <- <-]; auto|].
    destruct (get_default a "create_dirs" (JBool false)) as [|create| | | |];
      try (intros [= <- <-]; auto).
    destruct (isdir fs ap); [intros [= <- <-]; auto|]. cbv zeta.
    destruct (if create && negb (exists_ fs (dirname ap))
              then makedirs fs (dirname ap) else (None, fs)) as [[e|] fs0];
      [intros [= <- <-]; eauto|].
    destruct (write_text fs0 ap (str (get a "content"))) as [[e|] fs1];
      intros [= <- <-]; eauto. }
  split; [|split].
  - intros e fs' H. exact (Hwrite (Failed e) fs' H).
  - intros e fs' H. exact (Hdelete (Failed e) fs' H).
  - intros result fs' [H | H];
      [exact (Hwrite (Returned result) fs' H)|exact (Hdelete (Returned result) fs' H)].
Qed.

Lemma file_info_names (entry : DirEntry) :
  ∃ info, file_info entry = JDict info ∧
          get info "name" = JStr (entry_name entry) ∧
          get info "path" = JStr (entry_path entry) ∧
          (is_Some (dict_lookup info "error") ↔
             (∃ e, entry_is_dir entry = OSError e)
             ∨ (∃ e, entry_is_file entry = OSError e)
             ∨ (entry_is_file entry = Ok true ∧ ∃ e, entry_st_size entry = OSError e)).
Proof.
  unfold file_info, placeholder.
  destruct (entry_is_dir entry) as [d|e1].
  - destruct (entry_is_file entry) as [[|]|e2].
    + destruct (entry_st_size entry) as [n|e3]; eexists; (split; [reflexivity|]);
        (split; [reflexivity|]); (split; [reflexivity|]).
      * split; [intros [? [=]]|]. intros [[? [=]] | [[? [=]] | [_ [? [=]]]]].
      * split; [eauto 6|]. intros _. eexists. reflexivity.
    + eexists. split; [reflexivity|]. split; [reflexivity|]. split; [reflexivity|].
      split; [intros [? [=]]|]. intros [[? [=]] | [[? [=]] | [[=] _]]].
    + eexists. split; [reflexivity|]. split; [reflexivity|]. split; [reflexivity|].
      split; [eauto 6|]. intros _. eexists. reflexivity.
  - eexists. split; [reflexivity|]. split; [reflexivity|]. split; [reflexivity|].
    split; [eauto 6|]. intros _. eexists. reflexivity.
Qed.

(** A listing has one description for each entry of the directory, in the
    order of the scan and under the name and the path of the entry.  An
    entry that cannot be inspected is not dropped: its description carries
    the field [error], and only such a description does. *)
Theorem list_directory_lists_every_entry fs (args result : json) :
  list_directory fs args = Returned result →
  ∃ ap entries files,
    scandir fs ap = Ok entries ∧
    result = JDict [("files", JList files)] ∧
    length files = length entries ∧
    ∀ i entry, entries !! i = Some entry →
      ∃ info, files !! i = Some (JDict info) ∧
              get info "name" = JStr (entry_name entry) ∧
              get info "path" = JStr (entry_path entry) ∧
              (is_Some (dict_lookup info "error") ↔
                 (∃ e, entry_is_dir entry = OSError e)
                 ∨ (∃ e, entry_is_file entry = OSError e)
                 ∨ (entry_is_file entry = Ok true
                    ∧ ∃ e, entry_st_size entry = OSError e)).
Proof.
  unfold FilesystemServer.list_directory. destruct args as [| | | | |a]; try discriminate.
  cbv zeta. destruct (negb _ || _); [discriminate|].
  destruct (abspath fs _) as [ap|]; [|discriminate].
  destruct (negb (exists_ fs ap)); [discriminate|].
  destruct (negb (isdir fs ap)); [discriminate|].
  destruct (scandir fs ap) as [entries|] eqn:Hscan; [|discriminate].
  intros [= <-]. exists ap, entries, (map file_info entries).
  split; [exact Hscan|]. split; [reflexivity|]. split; [apply length_map|].
  intros i entry Hi. destruct (file_info_names entry) as (info & Hinfo & Hrest).
  exists info. split; [|exact Hrest].
  change (map file_info entries) with (file_info <$> entries).
  rewrite list_lookup_fmap, Hi. simpl. rewrite Hinfo. reflexivity.
Qed.

(** Every advertised tool has a handler and every handler is advertised,
    in each of the servers that the repository builds; the facade of the
    memory store advertises nothing and handles nothing. *)
Theorem advertised_tools_are_the_registered_ones
    (cmd_isdir : string → bool)
    (run : list string → option string → json → CommandServer.run_result)
    (environ : gmap string string) fs (n : string) :
  (n ∈ advertised_names EchoServer.tools
   ↔ is_Some (tool_handlers EchoServer.server !! n)) ∧
  (n ∈ advertised_names CommandServer.tools
   ↔ is_Some (tool_handlers (CommandServer.server cmd_isdir run environ) !! n)) ∧
  (n ∈ advertised_names FilesystemServer.tools
   ↔ is_Some (tool_handlers
                (FilesystemServer.server FS abspath exists_ isdir dirname scandir
                   read_text getcwd makedirs write_text rmtree remove fs) !! n)) ∧
  ((n ∉ advertised_names (BaseServer.tools Samples.memstore))
   ∧ tool_handlers Samples.memstore !! n = None).
Proof.
  unfold EchoServer.server, CommandServer.server, FilesystemServer.server,
    register_all, Samples.memstore.
  cbn [foldl register_tool tool_handlers __init__ fst snd BaseServer.tools].
  change (advertised_names EchoServer.tools) with ["echo"; "fail"].
  change (advertised_names CommandServer.tools)
    with ["execute_command"; "get_environment_variable"].
  change (advertised_names FilesystemServer.tools)
    with ["list_directory"; "read_file"; "write_file"; "delete_file"; "get_current_dir"].
  change (advertised_names []) with (@nil string).
  assert (Hnone : ¬ is_Some ((∅ : gmap string handler) !! n))
    by apply lookup_empty_is_Some.
  split; [|split; [|split; [|split; [apply not_elem_of_nil|apply lookup_empty]]]];
    (split;
     [ intros H; repeat (apply elem_of_cons in H as [-> | H]);
       try (eexists; reflexivity); apply elem_of_nil in H; destruct H
     | rewrite !lookup_insert_is_Some', !elem_of_cons; intros H;
       repeat destruct H as [<- | H]; auto 10; destruct (Hnone H) ]).
Qed.

End FilesystemProperties.

Lemma filesystem_path_witness :
  Inputs.list_directory Inputs.one_file (JDict Inputs.no_path_arguments)
    = Failed FilesystemServer.path_error ∧
  Inputs.read_file Inputs.one_file (JDict Inputs.no_path_arguments)
    = Failed FilesystemServer.path_error ∧
  Inputs.write_file Inputs.one_file (JDict Inputs.no_path_arguments)
    = (Failed FilesystemServer.path_error, Inputs.one_file) ∧
  Inputs.delete_file Inputs.one_file (JDict Inputs.no_path_arguments)
    = (Failed FilesystemServer.path_error, Inputs.one_file).
Proof.
  apply (filesystem_tools_require_a_path Inputs.FS Inputs.abspath Inputs.fs_exists
           Inputs.fs_isdir Inputs.dirname Inputs.scandir Inputs.read_text
           Inputs.makedirs Inputs.write_text Inputs.rmtree Inputs.remove
           Inputs.one_file Inputs.no_path_arguments).
  intros p [= <-]. reflexivity.
Defined.

Lemma write_file_witness :
  Inputs.write_file Inputs.one_file (JDict Inputs.write_arguments) =
    (Returned (JDict [("success", JBool true)]),
     <["/tmp/b.txt" := ""]> Inputs.one_file).
Proof.
  apply (write_file_without_create_dirs Inputs.FS Inputs.abspath Inputs.fs_exists
           Inputs.fs_isdir Inputs.dirname Inputs.makedirs Inputs.write_text
           Inputs.one_file Inputs.write_arguments "/tmp/b.txt" "" "/tmp/b.txt");
    [reflexivity | discriminate | reflexivity | left; reflexivity | reflexivity].
Defined.

Lemma read_file_negative_limit_witness :
  Inputs.read_file Inputs.one_file (JDict Inputs.read_negative_arguments) =
  Inputs.read_file Inputs.one_file (JDict Inputs.read_all_arguments).
Proof.
  apply (read_file_negative_limit Inputs.FS Inputs.abspath Inputs.fs_exists
           Inputs.fs_isdir Inputs.read_text Inputs.one_file
           Inputs.read_negative_arguments Inputs.read_all_arguments (-1));
    [reflexivity | reflexivity | lia | reflexivity].
Defined.

Lemma list_directory_witness :
  ∃ ap entries files,
    Inputs.scandir Inputs.one_file ap = FilesystemServer.Ok entries ∧
    JDict [("files", JList [JDict [("name", JStr "/tmp/a.txt");
                                   ("path", JStr "/tmp/a.txt");
                                   ("is_directory", JBool false);
                                   ("size", JInt 5)]])]
      = JDict [("files", JList files)] ∧
    length files = length entries ∧
    ∀ i entry, entries !! i = Some entry →
      ∃ info, files !! i = Some (JDict info) ∧
              get info "name" = JStr (FilesystemServer.entry_name entry) ∧
              get info "path" = JStr (FilesystemServer.entry_path entry) ∧
              (is_Some (dict_lookup info "error") ↔
                 (∃ e, FilesystemServer.entry_is_dir entry = FilesystemServer.OSError e)
                 ∨ (∃ e, FilesystemServer.entry_is_file entry
                         = FilesystemServer.OSError e)
                 ∨ (FilesystemServer.entry_is_file entry = FilesystemServer.Ok true
                    ∧ ∃ e, FilesystemServer.entry_st_size entry
                           = FilesystemServer.OSError e)).
Proof.
  apply (list_directory_lists_every_entry Inputs.FS Inputs.abspath Inputs.fs_exists
           Inputs.fs_isdir Inputs.scandir Inputs.one_file
           (JDict [("path", JStr "/tmp")])).
  vm_compute. reflexivity.
Defined.
